(** * EVA4 library: the S11 network blocks and the tensorboard trainer

    A shallow embedding of [EVA4/eva4models/s11net.py] and
    [EVA4/eva4tensorboardtrainer.py].

    The repository is glue over PyTorch, tqdm and a run manager.  The
    embedding keeps the glue (which layer is built with which arguments,
    which call follows which, which branch is taken) and takes the
    collaborators as interfaces:
    - tensor operations are a type class [Backend]; one instance computes
      shapes with PyTorch's documented size formulas;
    - autograd, optimizer, scheduler and run manager are the fields of a
      class [Framework]; the trainer is written in a small monad that
      threads the mutable objects, logs every call and can raise;
    - Python floats are idealised as rationals ([Q]): rounding is not
      modelled. *)

From Stdlib Require Import ZArith QArith Qabs String List Lia.
From stdpp Require Import base option list.
Import ListNotations.

Local Open Scope nat_scope.

(** ** Exceptions and results shared by both source files *)

Inductive exn : Type :=
| AttributeError (msg : string)
| RuntimeError (msg : string)
| TypeError (msg : string).

Inductive result (A : Type) : Type :=
| Ok (a : A)
| Raise (e : exn).
Arguments Ok {A} a.
Arguments Raise {A} e.

(** * s11net.py *)

Module S11.

(** ** Layer objects

    A layer owns its learnable tensors, of an abstract type [W]; PyTorch
    draws them when the layer is constructed, so the constructors below
    receive them as arguments. *)

Section Layers.
Context {W : Type}.

(** [nn.Conv2d(in, out, kernel_size, padding, stride, bias)] *)
Record Conv2d : Type := mkConv2d {
  in_channels : nat;
  out_channels : nat;
  kernel_size : nat;
  padding : nat;
  stride : nat;
  bias : bool;
  conv_weight : W
}.

(** [nn.BatchNorm2d(num_features)].  Every [nn.Module] carries the flag
    [training], true from construction until [eval()] or [train(False)];
    batch normalisation is the layer here whose forward pass reads it. *)
Record BatchNorm2d : Type := mkBatchNorm2d {
  num_features : nat;
  bn_training : bool;
  bn_weight : W
}.

(** [nn.MaxPool2d(kernel_size)]: the stride defaults to the kernel size
    and the padding to 0. *)
Record MaxPool2d : Type := mkMaxPool2d {
  pool_kernel : nat
}.

(** [class ResBlock(nn.Module)] *)
Record ResBlock : Type := mkResBlock {
  conv1 : Conv2d;
  bn1 : BatchNorm2d;
  conv2 : Conv2d;
  bn2 : BatchNorm2d
}.

(** [ResBlock.__init__(self, planes)] *)
Definition ResBlock_init (planes : nat) (w1 g1 w2 g2 : W) : ResBlock :=
  {| conv1 := mkConv2d planes planes 3 1 1 false w1;
     bn1 := mkBatchNorm2d planes true g1;
     conv2 := mkConv2d planes planes 3 1 1 false w2;
     bn2 := mkBatchNorm2d planes true g2 |}.

(** [class S11Block(nn.Module)]: the attribute [res] exists only when the
    block was built with a true [parallel]. *)
Record S11Block : Type := mkS11Block {
  parallel : bool;
  conv : Conv2d;
  maxpool : MaxPool2d;
  bn : BatchNorm2d;
  res : option ResBlock
}.

(** The learnable tensors a block draws at construction. *)
Record S11BlockWeights : Type := mkS11BlockWeights {
  w_conv : W; w_bn : W;
  w_res_conv1 : W; w_res_bn1 : W; w_res_conv2 : W; w_res_bn2 : W
}.

(** [S11Block.__init__(self, in_planes, planes, parallel=True)] *)
Definition S11Block_init (in_planes planes : nat) (par : bool)
    (w : S11BlockWeights) : S11Block :=
  {| parallel := par;
     conv := mkConv2d in_planes planes 3 1 1 false (w_conv w);
     maxpool := mkMaxPool2d 2;
     bn := mkBatchNorm2d planes true (w_bn w);
     res := if par
            then Some (ResBlock_init planes (w_res_conv1 w) (w_res_bn1 w)
                         (w_res_conv2 w) (w_res_bn2 w))
            else None |}.

(** The three blocks of [S11Net.__init__]; [prepLayer] and [fc] come from
    [Net.create_conv2d] of the base class and play no part below. *)
Record S11Net : Type := mkS11Net {
  layer1 : S11Block;
  layer2 : S11Block;
  layer3 : S11Block
}.

Definition S11Net_init (w1 w2 w3 : S11BlockWeights) : S11Net :=
  {| layer1 := S11Block_init 64 128 true w1;
     layer2 := S11Block_init 128 256 false w2;
     layer3 := S11Block_init 256 512 true w3 |}.

(** [self.train(mode)] of [nn.Module], which sets the flag on the module
    and on its children; [self.eval()] is [self.train(False)]. *)
Definition BatchNorm2d_train (mode : bool) (self : BatchNorm2d) : BatchNorm2d :=
  mkBatchNorm2d (num_features self) mode (bn_weight self).
Definition ResBlock_train (mode : bool) (self : ResBlock) : ResBlock :=
  mkResBlock (conv1 self) (BatchNorm2d_train mode (bn1 self))
             (conv2 self) (BatchNorm2d_train mode (bn2 self)).
Definition S11Block_train (mode : bool) (self : S11Block) : S11Block :=
  mkS11Block (parallel self) (conv self) (maxpool self)
             (BatchNorm2d_train mode (bn self))
             (option_map (ResBlock_train mode) (res self)).
Definition S11Net_train (mode : bool) (self : S11Net) : S11Net :=
  mkS11Net (S11Block_train mode (layer1 self)) (S11Block_train mode (layer2 self))
           (S11Block_train mode (layer3 self)).
End Layers.
Arguments Conv2d : clear implicits.
Arguments BatchNorm2d : clear implicits.
Arguments ResBlock : clear implicits.
Arguments S11Block : clear implicits.
Arguments S11BlockWeights : clear implicits.
Arguments S11Net : clear implicits.

(** ** The tensor operations the forward passes call *)

Class Backend (W T : Type) : Type := {
  conv2d : Conv2d W -> T -> T;          (* calling an [nn.Conv2d] *)
  batch_norm : BatchNorm2d W -> T -> T; (* calling an [nn.BatchNorm2d] *)
  max_pool2d : MaxPool2d -> T -> T;     (* calling an [nn.MaxPool2d] *)
  relu : T -> T;                        (* [F.relu] *)
  add : T -> T -> T                     (* [torch.add] *)
}.

Section Forward.
Context {W T : Type} `{!Backend W T}.

(** [ResBlock.forward(self, x)] *)
Definition ResBlock_forward (self : ResBlock W) (x : T) : T :=
  let out := relu (batch_norm (bn1 self) (conv2d (conv1 self) x)) in
  let out := relu (batch_norm (bn2 self) (conv2d (conv2 self) out)) in
  let out := add x out in
  out.

(** [S11Block.forward(self, x)]; reading a missing [self.res] raises. *)
Definition S11Block_forward (self : S11Block W) (x : T) : result T :=
  let out := relu (batch_norm (bn self) (max_pool2d (maxpool self) (conv2d (conv self) x))) in
  if parallel self then
    match res self with
    | Some r => Ok (ResBlock_forward r out)
    | None => Raise (AttributeError "'S11Block' object has no attribute 'res'")
    end
  else Ok out.
End Forward.

(** ** The shape instance

    A tensor is seen through its size only; [None] stands for the error
    the framework raises on a size it rejects. *)

Definition shape : Type := list nat.

(** Output extent of a convolution along one axis (dilation 1):
    [floor((n + 2*padding - kernel) / stride) + 1], rejected when the
    padded input is smaller than the kernel. *)
Definition conv_extent (n kernel pad strd : nat) : option nat :=
  if (n + 2 * pad <? kernel) || (strd =? 0) then None
  else Some ((n + 2 * pad - kernel) / strd + 1).

Definition conv2d_shape {W} (c : Conv2d W) (s : option shape) : option shape :=
  match s with
  | Some [n; ch; h; w] =>
      if ch =? in_channels c then
        match conv_extent h (kernel_size c) (padding c) (stride c),
              conv_extent w (kernel_size c) (padding c) (stride c) with
        | Some h', Some w' => Some [n; out_channels c; h'; w']
        | _, _ => None
        end
      else None
  | _ => None
  end.

(** Batch normalisation keeps the size.  It rejects a channel count that
    is not its [num_features] and, in training mode, an input with a
    single value per channel (n * h * w = 1), of which no variance can be
    taken. *)
Definition batch_norm_shape {W} (b : BatchNorm2d W) (s : option shape) : option shape :=
  match s with
  | Some [n; ch; h; w] =>
      if bn_training b && (n * h * w =? 1) then None
      else if ch =? num_features b then s else None
  | _ => None
  end.

Definition max_pool2d_shape (p : MaxPool2d) (s : option shape) : option shape :=
  match s with
  | Some [n; ch; h; w] =>
      match conv_extent h (pool_kernel p) 0 (pool_kernel p),
            conv_extent w (pool_kernel p) 0 (pool_kernel p) with
      | Some h', Some w' => Some [n; ch; h'; w']
      | _, _ => None
      end
  | _ => None
  end.

(** Broadcasting of two sizes of the same rank: axes agree or one is 1. *)
Fixpoint broadcast (a b : shape) : option shape :=
  match a, b with
  | [], [] => Some []
  | x :: a', y :: b' =>
      match broadcast a' b' with
      | Some r =>
          if x =? y then Some (x :: r)
          else if x =? 1 then Some (y :: r)
          else if y =? 1 then Some (x :: r)
          else None
      | None => None
      end
  | _, _ => None
  end.

Definition add_shape (a b : option shape) : option shape :=
  match a, b with
  | Some a', Some b' => broadcast a' b'
  | _, _ => None
  end.

#[export] Instance shape_backend {W} : Backend W (option shape) := {|
  conv2d := conv2d_shape;
  batch_norm := batch_norm_shape;
  max_pool2d := max_pool2d_shape;
  relu := fun s => s;
  add := add_shape
|}.

End S11.

(** * eva4tensorboardtrainer.py: [make_one_hot] *)

Module OneHot.

(** A four-axis tensor: its size and its entries as nested lists,
    indexed [n][c][h][w]. *)
Record tensor4 (A : Type) : Type := mkTensor4 {
  dim0 : nat; dim1 : nat; dim2 : nat; dim3 : nat;
  entries : list (list (list (list A)))
}.
Arguments mkTensor4 {A} _ _ _ _ _.
Arguments dim0 {A} _.
Arguments dim1 {A} _.
Arguments dim2 {A} _.
Arguments dim3 {A} _.
Arguments entries {A} _.

(** The entries agree with the size. *)
Definition wf4 {A} (t : tensor4 A) : bool :=
  (length (entries t) =? dim0 t) &&
  forallb (fun a => (length a =? dim1 t) &&
    forallb (fun b => (length b =? dim2 t) &&
      forallb (fun c => length c =? dim3 t) b) a) (entries t).

(** [t[n][c][h][w]] *)
Definition get4 {A} (t : tensor4 A) (n c h w : nat) : option A :=
  match entries t !! n with
  | Some a =>
      match a !! c with
      | Some b => match b !! h with Some r => r !! w | None => None end
      | None => None
      end
  | None => None
  end.

(** [t[n][c][h][w] = v], in place *)
Definition set4 {A} (t : tensor4 A) (n c h w : nat) (v : A) : tensor4 A :=
  mkTensor4 (dim0 t) (dim1 t) (dim2 t) (dim3 t)
    (alter (alter (alter (<[w := v]>) h) c) n (entries t)).

(** [torch.FloatTensor(n, c, h, w).zero_()] *)
Definition zeros (n c h w : nat) : tensor4 Q :=
  mkTensor4 n c h w (replicate n (replicate c (replicate h (replicate w 0%Q)))).

(** Every index position of a tensor of the given size, in row-major
    order. *)
Definition positions (n c h w : nat) : list (nat * nat * nat * nat) :=
  i ← seq 0 n; j ← seq 0 c; k ← seq 0 h; l ← seq 0 w; [(i, j, k, l)].

(** The loop of [scatter_] along axis 1 with a scalar source:
    [self[i][index[i][j][k][l]][k][l] = src] at every position of
    [index]; an index outside [0, self.size(1)) raises. *)
Fixpoint scatter_loop {A} (index : tensor4 Z) (src : A)
    (ps : list (nat * nat * nat * nat)) (self : tensor4 A) : result (tensor4 A) :=
  match ps with
  | [] => Ok self
  | (i, j, k, l) :: ps' =>
      match get4 index i j k l with
      | Some ix =>
          if ((0 <=? ix)%Z && (ix <? Z.of_nat (dim1 self))%Z)%bool
          then scatter_loop index src ps' (set4 self i (Z.to_nat ix) k l src)
          else Raise (RuntimeError "index out of bounds")
      | None => Raise (RuntimeError "malformed index tensor")
      end
  end.

(** [self.scatter_(1, index, src)]: the index may not exceed [self] along
    the other axes. *)
Definition scatter_1 {A} (self : tensor4 A) (index : tensor4 Z) (src : A)
    : result (tensor4 A) :=
  if (dim0 index <=? dim0 self) && (dim2 index <=? dim2 self)
     && (dim3 index <=? dim3 self)
  then scatter_loop index src
         (positions (dim0 index) (dim1 index) (dim2 index) (dim3 index)) self
  else Raise (RuntimeError "Expected index to be smaller than self apart from dimension 1").

(** [make_one_hot(labels, num_classes, device)].  Both branches allocate
    the same zero tensor; on which device it lives is not modelled. *)
Definition make_one_hot (labels : tensor4 Z) (num_classes : nat)
    (device : string) : result (tensor4 Q) :=
  let one_hot :=
    if String.eqb device "cuda"
    then zeros (dim0 labels) num_classes (dim2 labels) (dim3 labels)
    else zeros (dim0 labels) num_classes (dim2 labels) (dim3 labels) in
  let target := scatter_1 one_hot labels 1%Q in
  target.

(** A 1 x 1 x 2 x 2 label tensor over three classes. *)
Definition sample_labels : tensor4 Z :=
  mkTensor4 1 1 2 2 [[[[0; 2]; [1; 1]]]]%Z.

End OneHot.

(** * eva4tensorboardtrainer.py: [Train], [Test] and [ModelTrainer] *)

Module Trainer.

(** A parameter tensor, flattened to its entries; [model.parameters()] is
    a list of them. *)
Definition tensor : Type := list Q.

(** What a loss tensor remembers of how it was computed, for [backward]. *)
Inductive graph (Data Target : Type) : Type :=
| GLossfn (data : Data) (target : Target)
    (* lossfn(model(data), target) *)
| GAddL1 (g : graph Data Target) (lambda : Q).
    (* g += lambda * (sum over the parameters of sum(abs(param))) *)
Arguments GLossfn {Data Target} data target.
Arguments GAddL1 {Data Target} g lambda.

(** The class of a scheduler object, as far as [isinstance] tells. *)
Inductive sched_class : Type :=
| ReduceLROnPlateau
| OtherScheduler.

(** The values [Test.run] and [ModelTrainer.run] pass to [tqdm.write] as
    its second positional argument, [file]. *)
Inductive pyobj : Type :=
| PyNone
| PyFloat (x : Q)
| PyStream (name : string).

(** ** The collaborators

    PyTorch (model, autograd, optimizer, scheduler), the loss function and
    the run manager.  The forward pass and the loss read the parameters and
    write nothing; the parameters are written by [opt_step] only. *)
Class Framework : Type := {
  Data : Type;
  Target : Type;
  Output : Type;
  Grad : Type;        (* the parameters' [.grad] buffers *)
  Optim : Type;       (* optimizer object: hyper-parameters and buffers *)
  SchedState : Type;  (* scheduler object, apart from its class *)
  Stats : Type;       (* run manager object *)
  (* [model(data)], in training or evaluation mode *)
  forward : bool -> list tensor -> Data -> Output;
  (* gradient of a recorded loss with respect to the parameters *)
  autograd : (Output -> Target -> Q) -> bool -> list tensor
             -> graph Data Target -> Grad;
  grad_zero : Grad;
  grad_acc : Grad -> Grad -> Grad;
  (* [optimizer.step()] and [optimizer.param_groups[0]['lr']] *)
  opt_step : Optim -> list tensor -> Grad -> Optim * list tensor;
  opt_lr : Optim -> Q;
  (* [scheduler.get_last_lr()[0]], [scheduler.step()], [scheduler.step(metrics)] *)
  sched_get_last_lr : SchedState -> Q;
  sched_step : SchedState -> Optim -> SchedState * Optim;
  sched_step_metrics : Q -> SchedState -> Optim -> SchedState * Optim;
  (* the run manager, [eva4modelstats.ModelStats], is not among the
     sources; the spec describes it as keeping scalar running statistics
     (loss sums, correct-prediction counts), so [get_test_loss] returns a
     number *)
  rm_begin_run : string -> Stats -> Stats;
  rm_begin_epoch : Stats -> Stats;
  rm_begin_batch : Stats -> Stats;
  rm_track_train_loss : Q -> Stats -> Stats;
  rm_track_train_num_correct : Output -> Target -> Stats -> Stats;
  rm_end_batch : Q -> Stats -> Q * Stats;
  rm_track_test_loss : Q -> Stats -> Stats;
  rm_track_test_num_correct : Output -> Target -> Stats -> Stats;
  rm_get_test_loss : Stats -> Q;
  rm_end_epoch : Q -> Stats -> string * Stats;
  rm_savebest : string -> Stats -> Stats;
  rm_save : string -> Stats -> Stats;
  (* the f-string of [ModelTrainer.run] *)
  format_lr : Q -> string
}.

Section Monad.
Context `{F : Framework}.

(** A loss tensor: its value and its graph. *)
Record loss_tensor : Type := mkLoss {
  item : Q;
  grad_fn : graph Data Target
}.

Record scheduler_obj : Type := mkSched {
  sched_cls : sched_class;
  sched_state : SchedState
}.

(** The mutable objects the three classes share: each of [Train], [Test]
    and [ModelTrainer] holds references to the same model, optimizer,
    scheduler and run manager. *)
Record state : Type := mkState {
  training : bool;          (* [model.training] *)
  params : list tensor;     (* [model.parameters()] *)
  grad : Grad;
  grad_enabled : bool;      (* [torch.is_grad_enabled()] *)
  optim : Optim;
  sched : scheduler_obj;
  stats : Stats
}.

Definition set_training (b : bool) (s : state) : state :=
  mkState b (params s) (grad s) (grad_enabled s) (optim s) (sched s) (stats s).
Definition set_params (p : list tensor) (s : state) : state :=
  mkState (training s) p (grad s) (grad_enabled s) (optim s) (sched s) (stats s).
Definition set_grad (g : Grad) (s : state) : state :=
  mkState (training s) (params s) g (grad_enabled s) (optim s) (sched s) (stats s).
Definition set_grad_enabled (b : bool) (s : state) : state :=
  mkState (training s) (params s) (grad s) b (optim s) (sched s) (stats s).
Definition set_optim (o : Optim) (s : state) : state :=
  mkState (training s) (params s) (grad s) (grad_enabled s) o (sched s) (stats s).
Definition set_sched_state (x : SchedState) (s : state) : state :=
  mkState (training s) (params s) (grad s) (grad_enabled s) (optim s)
    (mkSched (sched_cls (sched s)) x) (stats s).
Definition set_stats (r : Stats) (s : state) : state :=
  mkState (training s) (params s) (grad s) (grad_enabled s) (optim s) (sched s) r.

(** Every call the trainer makes on a collaborator. *)
Inductive event : Type :=
| EModelTrain
| EModelEval
| EZeroGrad
| EForward (data : Data) (with_grad : bool)
| ELossfn (target : Target)
| EBackward (loss : loss_tensor)
| EOptimStep (g : Grad)
| ESchedStepBatch                   (* [scheduler.step()] in [Train.run] *)
| ESchedStepPlateau (metrics : Q)   (* [scheduler.step(loss)] in [Test.run] *)
| ESchedStepEpoch                   (* [scheduler.step()] in [ModelTrainer.run] *)
| EBeginRun (tbrun : string)
| EBeginEpoch
| EBeginBatch
| ETrackTrainLoss (loss : Q)
| ETrackTrainNumCorrect
| EEndBatch (lr : Q)
| ETrackTestLoss (loss : Q)
| ETrackTestNumCorrect
| EGetTestLoss
| EEndEpoch (lr : Q)
| ESaveBest (name : string)
| ESave (name : string)
| ESetDescription
| EWrite (msg : string) (file : pyobj).

(** A computation runs from a state to a result or an exception, a final
    state and the calls it made. *)
Record out (A : Type) : Type := mkOut {
  value : result A;
  final : state;
  log : list event
}.
Arguments mkOut {A} _ _ _.
Arguments value {A} _.
Arguments final {A} _.
Arguments log {A} _.

Definition M (A : Type) : Type := state -> out A.

Definition ret {A} (a : A) : M A := fun s => mkOut (Ok a) s [].

Definition bind {A B} (m : M A) (f : A -> M B) : M B :=
  fun s =>
    let o := m s in
    match value o with
    | Ok a => let o' := f a (final o) in
              mkOut (value o') (final o') (log o ++ log o')
    | Raise e => mkOut (Raise e) (final o) (log o)
    end.

Definition raise {A} (e : exn) : M A := fun s => mkOut (Raise e) s [].

(** One call: logged, with its effect on the objects and its result. *)
Definition call {A} (e : state -> event) (f : state -> A * state) : M A :=
  fun s => let r := f s in mkOut (Ok (fst r)) (snd r) [e s].

Definition read {A} (f : state -> A) : M A := fun s => mkOut (Ok (f s)) s [].

(** [for x in xs: body] *)
Fixpoint for_each {A} (xs : list A) (body : A -> M unit) : M unit :=
  match xs with
  | [] => ret tt
  | x :: xs' => bind (body x) (fun _ => for_each xs' body)
  end.

(** [with torch.no_grad(): body]: the previous mode is restored on the way
    out, also when [body] raises. *)
Definition no_grad {A} (body : M A) : M A :=
  fun s =>
    let o := body (set_grad_enabled false s) in
    mkOut (value o) (set_grad_enabled (grad_enabled s) (final o)) (log o).

End Monad.
Arguments mkOut {F A} _ _ _.
Arguments value {F A} _.
Arguments final {F A} _.
Arguments log {F A} _.

Notation "x <- m ;; k" := (bind m (fun x => k))
  (at level 100, m at next level, right associativity).
Notation "m ;; k" := (bind m (fun _ => k))
  (at level 100, right associativity).

Section Runners.
Context `{F : Framework}.

(** ** The calls *)

(** [self.model.train()], [self.model.eval()], [self.model(data)] *)
Definition model_train : M unit :=
  call (fun _ => EModelTrain) (fun s => (tt, set_training true s)).
Definition model_eval : M unit :=
  call (fun _ => EModelEval) (fun s => (tt, set_training false s)).
Definition model_call (data : Data) : M Output :=
  call (fun s => EForward data (grad_enabled s))
       (fun s => (forward (training s) (params s) data, s)).

(** [self.lossfn(y_pred, target)], where [y_pred] is [model(data)] *)
Definition lossfn_call (lossfn : Output -> Target -> Q) (data : Data)
    (y_pred : Output) (target : Target) : M loss_tensor :=
  call (fun _ => ELossfn target)
       (fun s => (mkLoss (lossfn y_pred target) (GLossfn data target), s)).

(** [torch.sum(t)] and [t.abs()] *)
Definition torch_sum (t : tensor) : Q := fold_left Qplus t 0%Q.
Definition tensor_abs (t : tensor) : tensor := map Qabs t.

(** [reg_loss = 0.; for param in ...: reg_loss += torch.sum(param.abs())] *)
Definition l1_reg_loss (parameters : list tensor) : Q :=
  fold_left (fun reg_loss param => (reg_loss + torch_sum (tensor_abs param))%Q)
            parameters 0%Q.

(** [self.optimizer.zero_grad()], [loss.backward()],
    [self.optimizer.step()] *)
Definition optimizer_zero_grad : M unit :=
  call (fun _ => EZeroGrad) (fun s => (tt, set_grad grad_zero s)).
Definition backward (lossfn : Output -> Target -> Q) (loss : loss_tensor) : M unit :=
  call (fun _ => EBackward loss)
       (fun s => (tt, set_grad (grad_acc (grad s)
                        (autograd lossfn (training s) (params s) (grad_fn loss))) s)).
Definition optimizer_step : M unit :=
  call (fun s => EOptimStep (grad s))
       (fun s => let r := opt_step (optim s) (params s) (grad s) in
                 (tt, set_params (snd r) (set_optim (fst r) s))).
Definition optimizer_lr : M Q := read (fun s => opt_lr (optim s)).

(** The scheduler.  [scheduler.step()] is the call without an argument:
    the [step] of a [ReduceLROnPlateau] requires its [metrics], so on such
    a scheduler the call is made and raises, leaving the objects as they
    were.  [get_last_lr] is taken to answer for both classes. *)
Definition scheduler_get_last_lr : M Q :=
  read (fun s => sched_get_last_lr (sched_state (sched s))).
Definition scheduler_step (e : event) : M unit :=
  fun s =>
    match sched_cls (sched s) with
    | ReduceLROnPlateau =>
        mkOut (Raise (TypeError
                 "step() missing 1 required positional argument: 'metrics'"))
              s [e]
    | OtherScheduler =>
        call (fun _ => e)
             (fun s => let r := sched_step (sched_state (sched s)) (optim s) in
                       (tt, set_sched_state (fst r) (set_optim (snd r) s))) s
    end.
Definition scheduler_step_metrics (metrics : Q) : M unit :=
  call (fun _ => ESchedStepPlateau metrics)
       (fun s => let r := sched_step_metrics metrics (sched_state (sched s)) (optim s) in
                 (tt, set_sched_state (fst r) (set_optim (snd r) s))).
Definition scheduler_is_plateau : M bool :=
  read (fun s => match sched_cls (sched s) with
                 | ReduceLROnPlateau => true
                 | OtherScheduler => false
                 end).

(** The run manager *)
Definition runmanager (e : event) (f : Stats -> Stats) : M unit :=
  call (fun _ => e) (fun s => (tt, set_stats (f (stats s)) s)).
Definition runmanager_end_batch (lr : Q) : M Q :=
  call (fun _ => EEndBatch lr)
       (fun s => let r := rm_end_batch lr (stats s) in
                 (fst r, set_stats (snd r) s)).
Definition runmanager_end_epoch (lr : Q) : M string :=
  call (fun _ => EEndEpoch lr)
       (fun s => let r := rm_end_epoch lr (stats s) in
                 (fst r, set_stats (snd r) s)).
Definition runmanager_get_test_loss : M Q :=
  call (fun _ => EGetTestLoss) (fun s => (rm_get_test_loss (stats s), s)).

(** tqdm: [pbar.set_description(s)] and [pbar.write(s, file)].  [write]
    prints to [file], or to the standard output when [file] is [None], by
    calling [file.write]; a float has no such attribute. *)
Definition pbar_set_description : M unit :=
  call (fun _ => ESetDescription) (fun s => (tt, s)).
Definition pbar_write (msg : string) (file : pyobj) : M unit :=
  call (fun _ => EWrite msg file) (fun s => (tt, s)) ;;
  match file with
  | PyFloat _ => raise (AttributeError "'float' object has no attribute 'write'")
  | PyNone | PyStream _ => ret tt
  end.

(** ** [class Train] *)

(** The scheduler attribute of the three classes is [None] or a reference
    to the one scheduler object of the state. *)
Inductive sched_ref : Type := TheScheduler.

(** The truth value of such an attribute: [None] is false, an object is
    true. *)
Definition truthy (r : option sched_ref) : bool :=
  match r with Some _ => true | None => false end.

Record Train : Type := mkTrain {
  Train_dataloader : list (Data * Target);
  Train_lossfn : Output -> Target -> Q;
  Train_scheduler : option sched_ref;
  Train_L1lambda : Q
}.

(** The body of the loop of [Train.run]; [data.to(device)] leaves the
    values as they are. *)
Definition Train_batch (self : Train) (batch : Data * Target) : M unit :=
  let '(data, target) := batch in
  runmanager EBeginBatch rm_begin_batch ;;
  optimizer_zero_grad ;;
  y_pred <- model_call data ;;
  loss <- lossfn_call (Train_lossfn self) data y_pred target ;;
  loss <- (if Qlt_le_dec 0 (Train_L1lambda self) then
             parameters <- read params ;;
             let reg_loss := l1_reg_loss parameters in
             ret (mkLoss (item loss + Train_L1lambda self * reg_loss)%Q
                         (GAddL1 (grad_fn loss) (Train_L1lambda self)))
           else ret loss) ;;
  backward (Train_lossfn self) loss ;;
  optimizer_step ;;
  runmanager (ETrackTrainLoss (item loss)) (rm_track_train_loss (item loss)) ;;
  runmanager ETrackTrainNumCorrect (rm_track_train_num_correct y_pred target) ;;
  lr <- (if truthy (Train_scheduler self) then scheduler_get_last_lr else optimizer_lr) ;;
  batchtime <- runmanager_end_batch lr ;;
  pbar_set_description ;;
  if truthy (Train_scheduler self) then scheduler_step ESchedStepBatch else ret tt.

(** [Train.run(self)] *)
Definition Train_run (self : Train) : M unit :=
  model_train ;;
  for_each (Train_dataloader self) (Train_batch self).

(** ** [class Test] *)

Record Test : Type := mkTest {
  Test_dataloader : list (Data * Target);
  Test_lossfn : Output -> Target -> Q;
  Test_scheduler : option sched_ref
}.

Definition Test_batch (self : Test) (batch : Data * Target) : M unit :=
  let '(data, target) := batch in
  output <- model_call data ;;
  loss <- lossfn_call (Test_lossfn self) data output target ;;
  runmanager (ETrackTestLoss (item loss)) (rm_track_test_loss (item loss)) ;;
  runmanager ETrackTestNumCorrect (rm_track_test_num_correct output target).

(** [Test.run(self)]: the arguments of [pbar.write] are evaluated before
    the call. *)
Definition Test_run (self : Test) : M unit :=
  model_eval ;;
  no_grad (
    for_each (Test_dataloader self) (Test_batch self) ;;
    plateau <- (if truthy (Test_scheduler self) then scheduler_is_plateau else ret false) ;;
    if plateau then
      test_loss <- runmanager_get_test_loss ;;
      pbar_write "In scheduler step with loss of " (PyFloat test_loss) ;;
      test_loss <- runmanager_get_test_loss ;;
      scheduler_step_metrics test_loss
    else ret tt).

(** ** [class ModelTrainer] *)

Record ModelTrainer : Type := mkModelTrainer {
  model_name : string;                (* [self.model.name] *)
  scheduler : option sched_ref;
  batch_scheduler : bool;
  train : Train;
  test : Test
}.

(** [ModelTrainer.__init__]; the model, optimizer and run manager are the
    objects of the state. *)
Definition ModelTrainer_init (name : string)
    (train_loader test_loader : list (Data * Target))
    (lossfn : Output -> Target -> Q) (scheduler : option sched_ref)
    (batch_scheduler : bool) (L1lambda : Q) : ModelTrainer :=
  {| model_name := name;
     scheduler := scheduler;
     batch_scheduler := batch_scheduler;
     train := mkTrain train_loader lossfn
                (if batch_scheduler then scheduler else None) L1lambda;
     test := mkTest test_loader lossfn scheduler |}.

(** [range(1, epochs + 1)] *)
Definition epoch_range (epochs : Z) : list Z :=
  map (fun i => (1 + Z.of_nat i)%Z) (seq 0 (Z.to_nat epochs)).

Definition ModelTrainer_epoch (self : ModelTrainer) (epoch : Z) : M unit :=
  runmanager EBeginEpoch rm_begin_epoch ;;
  Train_run (train self) ;;
  Test_run (test self) ;;
  lr <- optimizer_lr ;;
  msg <- runmanager_end_epoch lr ;;
  pbar_write msg PyNone ;;
  runmanager (ESaveBest (model_name self)) (rm_savebest (model_name self)) ;;
  epoch_step <- (if truthy (scheduler self) then
                   if negb (batch_scheduler self) then
                     plateau <- scheduler_is_plateau ;; ret (negb plateau)
                   else ret false
                 else ret false) ;;
  (if epoch_step : bool then scheduler_step ESchedStepEpoch else ret tt) ;;
  pbar_write (format_lr lr) PyNone.

(** [ModelTrainer.run(self, tbrun, epochs=10)] *)
Definition ModelTrainer_run (self : ModelTrainer) (tbrun : string) (epochs : Z)
    : M unit :=
  runmanager (EBeginRun tbrun) (rm_begin_run tbrun) ;;
  for_each (epoch_range epochs) (ModelTrainer_epoch self) ;;
  runmanager (ESave (model_name self)) (rm_save (model_name self)).

End Runners.

(** ** Calls without their arguments *)

Inductive call_name : Type :=
| model_train_ | model_eval_ | zero_grad_ | forward_ | lossfn_ | backward_
| optimizer_step_ | scheduler_step_ | begin_run_ | begin_epoch_
| begin_batch_ | track_train_loss_ | track_train_num_correct_ | end_batch_
| track_test_loss_ | track_test_num_correct_ | get_test_loss_ | end_epoch_
| savebest_ | save_ | set_description_ | write_.

Definition name_of `{F : Framework} (e : event) : call_name :=
  match e with
  | EModelTrain => model_train_
  | EModelEval => model_eval_
  | EZeroGrad => zero_grad_
  | EForward _ _ => forward_
  | ELossfn _ => lossfn_
  | EBackward _ => backward_
  | EOptimStep _ => optimizer_step_
  | ESchedStepBatch | ESchedStepPlateau _ | ESchedStepEpoch => scheduler_step_
  | EBeginRun _ => begin_run_
  | EBeginEpoch => begin_epoch_
  | EBeginBatch => begin_batch_
  | ETrackTrainLoss _ => track_train_loss_
  | ETrackTrainNumCorrect => track_train_num_correct_
  | EEndBatch _ => end_batch_
  | ETrackTestLoss _ => track_test_loss_
  | ETrackTestNumCorrect => track_test_num_correct_
  | EGetTestLoss => get_test_loss_
  | EEndEpoch _ => end_epoch_
  | ESaveBest _ => savebest_
  | ESave _ => save_
  | ESetDescription => set_description_
  | EWrite _ _ => write_
  end.

(** The calls received by the run manager. *)
Definition on_runmanager (c : call_name) : bool :=
  match c with
  | begin_run_ | begin_epoch_ | begin_batch_ | track_train_loss_
  | track_train_num_correct_ | end_batch_ | track_test_loss_
  | track_test_num_correct_ | get_test_loss_ | end_epoch_ | savebest_
  | save_ => true
  | _ => false
  end.

Definition runmanager_calls `{F : Framework} (l : list event) : list call_name :=
  filter (fun c => on_runmanager c = true) (map name_of l).

(** The losses handed to [backward] and the gradient buffers seen by
    [optimizer.step], in the order of the calls. *)
Definition backpropagated `{F : Framework} (l : list event) : list loss_tensor :=
  omap (fun e => match e with EBackward loss => Some loss | _ => None end) l.
Definition stepped_with `{F : Framework} (l : list event) : list Grad :=
  omap (fun e => match e with EOptimStep g => Some g | _ => None end) l.

(** The states in which [Train.run] enters the loop body, batch by
    batch: the loop goes on to the next batch when the body returns, and
    ends where it raises. *)
Fixpoint batch_states `{F : Framework} (self : Train)
    (batches : list (Data * Target)) (s : state) : list (state * (Data * Target)) :=
  match batches with
  | [] => []
  | b :: batches' =>
      (s, b) :: match value (Train_batch self b s) with
                | Ok _ => batch_states self batches' (final (Train_batch self b s))
                | Raise _ => []
                end
  end.

End Trainer.

(** * A small concrete framework

    One weight [w], the model [w * data], the loss [y_pred - target],
    plain gradient descent, a scheduler that halves the learning rate and
    a run manager that sums losses.  It serves to run the trainer on
    concrete inputs. *)

Module Toy.
Import Trainer.

Record toy_stats : Type := mkToyStats {
  train_loss_sum : Q;
  test_loss_sum : Q;
  batches_seen : nat
}.

Definition toy_weight (ps : list tensor) : Q :=
  match ps with
  | (w :: _) :: _ => w
  | _ => 0%Q
  end.

(** d(w * data - target)/dw = data; the L1 term adds [lambda] (for a
    positive weight). *)
Fixpoint toy_autograd (g : graph Q Q) : list tensor :=
  match g with
  | GLossfn data _ => [[data]]
  | GAddL1 g' lambda => map (map (Qplus lambda)) (toy_autograd g')
  end.

Definition toy_acc (a b : list tensor) : list tensor :=
  zip_with (zip_with Qplus) a b.

Definition toy_sgd (lr : Q) (ps g : list tensor) : Q * list tensor :=
  (lr, zip_with (zip_with (fun p d => (p - lr * d)%Q)) ps g).

#[export] Instance toy : Framework := {|
  Data := Q;
  Target := Q;
  Output := Q;
  Grad := list tensor;
  Optim := Q;
  SchedState := nat;
  Stats := toy_stats;
  forward := fun _ ps data => (toy_weight ps * data)%Q;
  autograd := fun _ _ _ g => toy_autograd g;
  grad_zero := [[0%Q]];
  grad_acc := toy_acc;
  opt_step := toy_sgd;
  opt_lr := fun lr => lr;
  sched_get_last_lr := fun _ => 1%Q;
  sched_step := fun n lr => (S n, (lr * (1 # 2))%Q);
  sched_step_metrics := fun _ n lr => (S n, lr);
  rm_begin_run := fun _ _ => mkToyStats 0 0 0;
  rm_begin_epoch := fun r => mkToyStats 0 0 (batches_seen r);
  rm_begin_batch := fun r =>
    mkToyStats (train_loss_sum r) (test_loss_sum r) (S (batches_seen r));
  rm_track_train_loss := fun l r =>
    mkToyStats (train_loss_sum r + l) (test_loss_sum r) (batches_seen r);
  rm_track_train_num_correct := fun _ _ r => r;
  rm_end_batch := fun _ r => (0%Q, r);
  rm_track_test_loss := fun l r =>
    mkToyStats (train_loss_sum r) (test_loss_sum r + l) (batches_seen r);
  rm_track_test_num_correct := fun _ _ r => r;
  rm_get_test_loss := test_loss_sum;
  rm_end_epoch := fun _ r => ("epoch done"%string, r);
  rm_savebest := fun _ r => r;
  rm_save := fun _ r => r;
  format_lr := fun _ => "Learning Rate"%string
|}.

Definition toy_lossfn (y_pred target : Q) : Q := (y_pred - target)%Q.

(** A model in training mode with weight 1, learning rate 1, an empty
    gradient buffer and a scheduler of the given class. *)
Definition toy_state (cls : sched_class) : state :=
  mkState true [[1%Q]] [[0%Q]] true 1%Q (mkSched cls 0) (mkToyStats 0 0 0).

Definition two_batches : list (Q * Q) := [(1%Q, 0%Q); (2%Q, 0%Q)].

Definition toy_train (lambda : Q) : Train :=
  mkTrain two_batches toy_lossfn None lambda.

Definition toy_test (r : option sched_ref) : Test :=
  mkTest two_batches toy_lossfn r.

Definition toy_trainer (r : option sched_ref) (batch_scheduler : bool)
    : ModelTrainer :=
  ModelTrainer_init "S11Net" two_batches two_batches toy_lossfn r
    batch_scheduler 0%Q.

End Toy.

(** * Notions used to state the properties *)

Module Props.
Import Trainer.

(** [OneHot.wf4] as a proposition. *)
Definition well_sized {A} (t : OneHot.tensor4 A) : Prop :=
  length (OneHot.entries t) = OneHot.dim0 t ∧
  Forall (fun a => length a = OneHot.dim1 t ∧
    Forall (fun b => length b = OneHot.dim2 t ∧
      Forall (fun c => length c = OneHot.dim3 t) b) a) (OneHot.entries t).

(** The sum of the absolute values of the entries of a tensor, and that
    sum over all the parameters. *)
Definition sum_abs (t : tensor) : Q :=
  fold_right (fun e acc => (Qabs e + acc)%Q) 0%Q t.
Definition l1_norm (parameters : list tensor) : Q :=
  fold_right (fun p acc => (sum_abs p + acc)%Q) 0%Q parameters.

Section Trainer_props.
Context `{F : Framework}.

(** The graph of the loss of one batch and its gradient in the state in
    which the batch is processed. *)
Definition batch_graph (self : Train) (batch : Data * Target) : graph Data Target :=
  if Qlt_le_dec 0 (Train_L1lambda self)
  then GAddL1 (GLossfn (fst batch) (snd batch)) (Train_L1lambda self)
  else GLossfn (fst batch) (snd batch).
Definition batch_gradient (self : Train) (s : state) (batch : Data * Target) : Grad :=
  autograd (Train_lossfn self) (training s) (params s) (batch_graph self batch).

(** The states and batches of a whole [Train.run]. *)
Definition run_batches (self : Train) (s0 : state) : list (state * (Data * Target)) :=
  batch_states self (Train_dataloader self) (set_training true s0).

(** Gradient accumulation across batches: the buffer [optimizer.step]
    sees holds what the earlier batches left in it plus the gradient of
    the present batch. *)
Definition accumulates_gradients (self : Train) (s0 : state) : Prop :=
  Forall (fun sb =>
            stepped_with (log (Train_batch self (snd sb) (fst sb)))
            = [grad_acc (grad (fst sb)) (batch_gradient self (fst sb) (snd sb))])
         (run_batches self s0).

(** Nothing but the run manager's statistics differs between two
    states. *)
Definition only_stats_mutated (s s' : state) : Prop :=
  training s' = training s ∧ params s' = params s ∧ grad s' = grad s
  ∧ grad_enabled s' = grad_enabled s ∧ optim s' = optim s ∧ sched s' = sched s.

(** A call that fits an evaluation pass: a forward pass made with
    gradients disabled, or anything but [zero_grad], [backward] and
    [optimizer.step]. *)
Definition evaluation_call (e : event) : Prop :=
  match e with
  | EForward _ with_grad => with_grad = false
  | EZeroGrad | EBackward _ | EOptimStep _ => False
  | _ => True
  end.

(** The class of the scheduler object is [c]. *)
Definition scheduler_class (c : sched_class) (s : state) : Prop :=
  sched_cls (sched s) = c.

(** The scheduler a training runner holds, if it holds one, can be stepped
    without an argument. *)
Definition can_step (self : Train) (s : state) : Prop :=
  truthy (Train_scheduler self) = true -> scheduler_class OtherScheduler s.

(** What the run manager receives in one epoch with [n] training batches
    and [m] test batches. *)
Definition epoch_calls (n m : nat) : list call_name :=
  [begin_epoch_]
  ++ concat (replicate n [begin_batch_; track_train_loss_;
                          track_train_num_correct_; end_batch_])
  ++ concat (replicate m [track_test_loss_; track_test_num_correct_])
  ++ [end_epoch_; savebest_].

(** A partial-correctness judgement on a computation: started in a state
    satisfying [Pre], it ends (normally or by raising) in a state
    satisfying [Inv], every call it logs satisfies [P], and a value it
    returns satisfies [Q] in the final state. *)
Definition hoare {A} (Pre : state -> Prop) (m : M A) (Inv : state -> Prop)
    (P : event -> Prop) (Q : A -> state -> Prop) : Prop :=
  ∀ s, Pre s ->
    Inv (final (m s)) ∧ Forall P (log (m s))
    ∧ ∀ a, value (m s) = Ok a -> Q a (final (m s)).

End Trainer_props.
End Props.

(** * The whole network and further notions *)

Module S11Whole.
Import S11.

(** The tensor operations of the head of [S11Net.forward]. *)
Class HeadBackend (T : Type) : Type := {
  view_rows : nat -> T -> T;   (* [x.view(-1, cols)] *)
  log_softmax : T -> T         (* [F.log_softmax(x, dim=-1)] *)
}.

(** [S11Net.forward(self, x)].  [prepLayer] and [fc] are built by
    [Net.create_conv2d] of the base class, which is not among the
    sources; they are taken as they come.  [F.max_pool2d(x, 4)] is the
    pooling of an [nn.MaxPool2d(4)]. *)
Definition S11Net_forward {W T} `{!Backend W T} `{!HeadBackend T}
    (prepLayer fc : T -> T) (self : S11Net W) (x : T) : result T :=
  let x := prepLayer x in
  match S11Block_forward (layer1 self) x with
  | Raise e => Raise e
  | Ok x =>
      match S11Block_forward (layer2 self) x with
      | Raise e => Raise e
      | Ok x =>
          match S11Block_forward (layer3 self) x with
          | Raise e => Raise e
          | Ok x =>
              let x := max_pool2d (mkMaxPool2d 4) x in
              let x := fc x in
              let x := view_rows 10 x in
              Ok (log_softmax x)
          end
      end
  end.

(** [view(-1, cols)] on sizes: the number of rows is inferred from the
    number of elements, which [cols] has to divide. *)
Definition view_rows_shape (cols : nat) (s : option shape) : option shape :=
  match s with
  | Some dims =>
      let total := fold_right Nat.mul 1 dims in
      if (cols =? 0) || negb (total mod cols =? 0) then None
      else Some [total / cols; cols]
  | None => None
  end.

#[export] Instance shape_head : HeadBackend (option shape) := {|
  view_rows := view_rows_shape;
  log_softmax := fun s => s
|}.

End S11Whole.

(** * What a run reports and how often it steps the scheduler *)

Module Measures.
Import Trainer.

Section Measures.
Context `{F : Framework}.

(** The losses handed to [track_train_loss] and to [track_test_loss], in
    the order of the calls. *)
Definition tracked_train_losses (l : list event) : list Q :=
  omap (fun e => match e with ETrackTrainLoss x => Some x | _ => None end) l.
Definition tracked_test_losses (l : list event) : list Q :=
  omap (fun e => match e with ETrackTestLoss x => Some x | _ => None end) l.

(** The number of [scheduler.step()] calls made by [Train.run] and by
    [ModelTrainer.run] itself. *)
Definition is_batch_step (e : event) : bool :=
  match e with ESchedStepBatch => true | _ => false end.
Definition is_epoch_step (e : event) : bool :=
  match e with ESchedStepEpoch => true | _ => false end.
Definition batch_steps (l : list event) : nat :=
  length (List.filter is_batch_step l).
Definition epoch_steps (l : list event) : nat :=
  length (List.filter is_epoch_step l).

End Measures.
End Measures.

(** * Properties of the network blocks *)

Module S11Facts.
Import S11.

Lemma conv_extent_3_1_1 (n : nat) : 0 < n -> conv_extent n 3 1 1 = Some n.
Proof.
  intros Hn. unfold conv_extent.
  destruct (n + 2 * 1 <? 3) eqn:E.
  - apply Nat.ltb_lt in E. lia.
  - cbn [orb Nat.eqb]. f_equal.
    rewrite Nat.div_1_r. lia.
Qed.

Lemma batch_norm_shape_same {W} (planes : nat) (mode : bool) (g : W)
    (N H Wd : nat) :
  (mode = true -> N * H * Wd <> 1) ->
  batch_norm_shape (mkBatchNorm2d planes mode g) (Some [N; planes; H; Wd])
  = Some [N; planes; H; Wd].
Proof.
  intros Hmany. unfold batch_norm_shape. cbn [num_features bn_training].
  rewrite Nat.eqb_refl.
  destruct mode; [|reflexivity].
  destruct (N * H * Wd =? 1) eqn:E; [|reflexivity].
  apply Nat.eqb_eq in E. destruct (Hmany eq_refl E).
Qed.

Lemma ResBlock_shape {W} (planes : nat) (mode : bool) (w1 g1 w2 g2 : W)
    (N H Wd : nat) :
  0 < H -> 0 < Wd -> (mode = true -> N * H * Wd <> 1) ->
  ResBlock_forward (T := option shape)
    (ResBlock_train mode (ResBlock_init planes w1 g1 w2 g2))
    (Some [N; planes; H; Wd]) = Some [N; planes; H; Wd].
Proof.
  intros HH HW Hmany.
  unfold ResBlock_forward, ResBlock_train, ResBlock_init, BatchNorm2d_train.
  cbn [conv1 conv2 bn1 bn2 num_features bn_weight].
  cbn [conv2d batch_norm relu add shape_backend].
  assert (Hc : forall w0 : W,
             conv2d_shape (mkConv2d planes planes 3 1 1 false w0)
               (Some [N; planes; H; Wd]) = Some [N; planes; H; Wd]).
  { intros w0. unfold conv2d_shape.
    cbn [in_channels out_channels kernel_size padding stride].
    rewrite Nat.eqb_refl, !conv_extent_3_1_1 by assumption. reflexivity. }
  rewrite Hc, batch_norm_shape_same, Hc, batch_norm_shape_same by assumption.
  unfold add_shape. cbn [broadcast]. rewrite !Nat.eqb_refl. reflexivity.
Qed.

(** C6, as the code has it. [ResBlock.forward] returns
    x + relu(bn2(conv2(relu(bn1(conv1(x)))))), both convolutions map
    [planes] channels to [planes] channels with kernel size 3, stride 1
    and padding 1, and the output has the size of the input on every
    N x planes x H x W input the layers accept: H and W at least 1 and,
    while the block is in training mode, as it is from construction,
    more than one value per channel. *)
Theorem ResBlock_forward_skip {W T} `{!Backend W T} (planes : nat)
    (w1 g1 w2 g2 : W) (x : T) (mode : bool) (N H Wd : nat) :
  0 < H -> 0 < Wd -> (mode = true -> N * H * Wd <> 1) ->
  let self := ResBlock_train mode (ResBlock_init planes w1 g1 w2 g2) in
  ResBlock_train true (ResBlock_init planes w1 g1 w2 g2)
  = ResBlock_init planes w1 g1 w2 g2
  /\ ResBlock_forward self x
     = add x (relu (batch_norm (bn2 self) (conv2d (conv2 self)
                (relu (batch_norm (bn1 self) (conv2d (conv1 self) x))))))
  /\ (in_channels (conv1 self), out_channels (conv1 self), kernel_size (conv1 self),
      stride (conv1 self), padding (conv1 self)) = (planes, planes, 3, 1, 1)
  /\ (in_channels (conv2 self), out_channels (conv2 self), kernel_size (conv2 self),
      stride (conv2 self), padding (conv2 self)) = (planes, planes, 3, 1, 1)
  /\ ResBlock_forward (T := option shape) self (Some [N; planes; H; Wd])
     = Some [N; planes; H; Wd].
Proof.
  intros HH HW Hmany self. repeat split.
  apply ResBlock_shape; assumption.
Qed.

Lemma ResBlock_forward_skip_witness :
  ResBlock_forward (T := option shape) (ResBlock_init 128 tt tt tt tt)
    (Some [4; 128; 16; 16]) = Some [4; 128; 16; 16].
Proof.
  apply (ResBlock_forward_skip (T := option shape) 128 tt tt tt tt
           (Some [4; 128; 16; 16]) true 4 16 16); [lia|lia|].
  intros _. discriminate.
Defined.

(** C6 fails as stated: a freshly built block raises on a single
    1 x 1 image, in batch normalisation, and on an image of height 0, in
    the convolution. *)
Lemma ResBlock_forward_size_counterexample :
  ResBlock_forward (T := option shape) (ResBlock_init 128 tt tt tt tt)
    (Some [1; 128; 1; 1]) <> Some [1; 128; 1; 1]
  /\ ResBlock_forward (T := option shape) (ResBlock_init 128 tt tt tt tt)
       (Some [4; 128; 0; 16]) <> Some [4; 128; 0; 16].
Proof. split; vm_compute; discriminate. Qed.

(** C7. [S11Block.forward] computes relu(bn(maxpool2(conv(x)))) and passes
    it through the residual block exactly when the block was built with
    [parallel=True]; built with [parallel=False], as [layer2] of [S11Net]
    is, it returns relu(bn(maxpool2(conv(x)))) itself. *)
Theorem S11Block_forward_parallel {W T} `{!Backend W T} (in_planes planes : nat)
    (w : S11BlockWeights W) (w1 w3 : S11BlockWeights W) (x : T) :
  let stem (self : S11Block W) :=
    relu (batch_norm (bn self) (max_pool2d (maxpool self) (conv2d (conv self) x))) in
  let on := S11Block_init in_planes planes true w in
  let off := S11Block_init in_planes planes false w in
  let net := S11Net_init w1 w w3 in
  (pool_kernel (maxpool on) = 2 /\ pool_kernel (maxpool off) = 2)
  /\ S11Block_forward on x
     = Ok (ResBlock_forward
             (ResBlock_init planes (w_res_conv1 w) (w_res_bn1 w)
                (w_res_conv2 w) (w_res_bn2 w)) (stem on))
  /\ S11Block_forward off x = Ok (stem off)
  /\ parallel (layer2 net) = false
  /\ S11Block_forward (layer2 net) x = Ok (stem (layer2 net)).
Proof.
  cbv zeta. repeat split.
Qed.

End S11Facts.

(** * Properties of [make_one_hot] *)

Module OneHotFacts.
Import OneHot Props.

Section Cells.
Context {A : Type}.
Implicit Types (t : tensor4 A) (v : A).

Lemma forallb_Forall {B} (f : B -> bool) (l : list B) :
  forallb f l = true <-> Forall (fun x => f x = true) l.
Proof.
  induction l as [|x l IH]; cbn.
  - split; [constructor|reflexivity].
  - rewrite andb_true_iff, IH. split.
    + intros [? ?]. constructor; assumption.
    + intros Hc. inversion Hc; subst. split; assumption.
Qed.

Lemma wf4_well_sized t : wf4 t = true <-> well_sized t.
Proof.
  unfold wf4, well_sized.
  rewrite andb_true_iff, Nat.eqb_eq, forallb_Forall.
  apply and_iff_compat_l, Forall_iff. intros a.
  rewrite andb_true_iff, Nat.eqb_eq, forallb_Forall.
  apply and_iff_compat_l, Forall_iff. intros b.
  rewrite andb_true_iff, Nat.eqb_eq, forallb_Forall.
  apply and_iff_compat_l, Forall_iff. intros c.
  apply Nat.eqb_eq.
Qed.

Lemma get4_in_range t n c h w :
  well_sized t -> n < dim0 t -> c < dim1 t -> h < dim2 t -> w < dim3 t ->
  is_Some (get4 t n c h w).
Proof.
  intros [H0 Ha] Hn Hc Hh Hw. unfold get4.
  destruct (entries t !! n) as [a|] eqn:Ea.
  2:{ apply lookup_ge_None in Ea. exfalso. lia. }
  destruct (Forall_lookup_1 _ _ _ _ Ha Ea) as [H1 Hb].
  destruct (a !! c) as [b|] eqn:Eb.
  2:{ apply lookup_ge_None in Eb. exfalso. lia. }
  destruct (Forall_lookup_1 _ _ _ _ Hb Eb) as [H2 Hr].
  destruct (b !! h) as [r|] eqn:Er.
  2:{ apply lookup_ge_None in Er. exfalso. lia. }
  pose proof (Forall_lookup_1 _ _ _ _ Hr Er) as H3. cbv beta in H3.
  apply lookup_lt_is_Some_2. lia.
Qed.

Lemma get4_Some_in_range t n c h w x :
  well_sized t -> get4 t n c h w = Some x ->
  n < dim0 t /\ c < dim1 t /\ h < dim2 t /\ w < dim3 t.
Proof.
  intros [H0 Ha]. unfold get4.
  destruct (entries t !! n) as [a|] eqn:Ea; [|discriminate].
  destruct (Forall_lookup_1 _ _ _ _ Ha Ea) as [H1 Hb].
  destruct (a !! c) as [b|] eqn:Eb; [|discriminate].
  destruct (Forall_lookup_1 _ _ _ _ Hb Eb) as [H2 Hr].
  destruct (b !! h) as [r|] eqn:Er; [|discriminate].
  pose proof (Forall_lookup_1 _ _ _ _ Hr Er) as H3. cbv beta in H3.
  intros Ew.
  apply lookup_lt_Some in Ea, Eb, Er, Ew. lia.
Qed.

Lemma get4_set4_same t n c h w v :
  is_Some (get4 t n c h w) -> get4 (set4 t n c h w v) n c h w = Some v.
Proof.
  unfold get4, set4. cbn [entries].
  rewrite list_lookup_alter_eq.
  destruct (entries t !! n) as [a|]; cbn; [|intros [? ?]; discriminate].
  rewrite list_lookup_alter_eq.
  destruct (a !! c) as [b|]; cbn; [|intros [? ?]; discriminate].
  rewrite list_lookup_alter_eq.
  destruct (b !! h) as [r|]; cbn; [|intros [? ?]; discriminate].
  intros Hs. apply list_lookup_insert_eq, lookup_lt_is_Some_1, Hs.
Qed.

Lemma get4_set4_other t n c h w v n' c' h' w' :
  (n, c, h, w) <> (n', c', h', w') ->
  get4 (set4 t n c h w v) n' c' h' w' = get4 t n' c' h' w'.
Proof.
  intros Hne. unfold get4, set4. cbn [entries].
  rewrite list_lookup_alter. case_decide as En; [subst n'|reflexivity].
  destruct (entries t !! n) as [a|]; cbn; [|reflexivity].
  rewrite list_lookup_alter. case_decide as Ec; [subst c'|reflexivity].
  destruct (a !! c) as [b|]; cbn; [|reflexivity].
  rewrite list_lookup_alter. case_decide as Eh; [subst h'|reflexivity].
  destruct (b !! h) as [r|]; cbn; [|reflexivity].
  apply list_lookup_insert_ne. congruence.
Qed.

Lemma set4_well_sized t n c h w v : well_sized t -> well_sized (set4 t n c h w v).
Proof.
  intros [H0 Ha]. unfold well_sized, set4. cbn [entries dim0 dim1 dim2 dim3].
  split; [rewrite length_alter; exact H0|].
  apply Forall_alter; [exact Ha|]. intros a _ [H1 Hb].
  split; [rewrite length_alter; exact H1|].
  apply Forall_alter; [exact Hb|]. intros b _ [H2 Hr].
  split; [rewrite length_alter; exact H2|].
  apply Forall_alter; [exact Hr|]. intros r _ H3.
  rewrite length_insert. exact H3.
Qed.

Lemma set4_defined t n c h w v n' c' h' w' :
  is_Some (get4 t n' c' h' w') -> is_Some (get4 (set4 t n c h w v) n' c' h' w').
Proof.
  intros Hs.
  destruct (decide ((n, c, h, w) = (n', c', h', w'))) as [E|E].
  - injection E as -> -> -> ->. rewrite get4_set4_same by exact Hs. eauto.
  - rewrite get4_set4_other by exact E. exact Hs.
Qed.

Lemma set4_keeps t n c h w v n' c' h' w' :
  is_Some (get4 t n c h w) ->
  get4 t n' c' h' w' = Some v -> get4 (set4 t n c h w v) n' c' h' w' = Some v.
Proof.
  intros Hs Hv.
  destruct (decide ((n, c, h, w) = (n', c', h', w'))) as [E|E].
  - injection E as -> -> -> ->. apply get4_set4_same. eauto.
  - rewrite get4_set4_other by exact E. exact Hv.
Qed.

(** The loop of [scatter_]: it ends without raising when every index is
    in range; the cells it addresses hold [src], the others are as
    before. *)
Lemma scatter_loop_spec (index : tensor4 Z) (src : A) ps : forall self,
  well_sized self ->
  (forall i j k l, (i, j, k, l) ∈ ps ->
     exists ix, get4 index i j k l = Some ix
                /\ (0 <= ix < Z.of_nat (dim1 self))%Z
                /\ is_Some (get4 self i (Z.to_nat ix) k l)) ->
  exists t, scatter_loop index src ps self = Ok t
    /\ well_sized t
    /\ (dim0 t, dim1 t, dim2 t, dim3 t) = (dim0 self, dim1 self, dim2 self, dim3 self)
    /\ (forall n c h w, get4 self n c h w = Some src -> get4 t n c h w = Some src)
    /\ (forall i j k l ix, (i, j, k, l) ∈ ps -> get4 index i j k l = Some ix ->
          get4 t i (Z.to_nat ix) k l = Some src)
    /\ (forall n c h w,
          (forall i j k l ix, (i, j, k, l) ∈ ps -> get4 index i j k l = Some ix ->
             (i, Z.to_nat ix, k, l) <> (n, c, h, w)) ->
          get4 t n c h w = get4 self n c h w).
Proof.
  induction ps as [|[[[i j] k] l] ps IH]; intros self Hwf Hidx.
  - exists self. split; [reflexivity|]. split; [exact Hwf|].
    split; [reflexivity|]. split; [auto|].
    split; [intros ? ? ? ? ? Hin; inversion Hin|reflexivity].
  - destruct (Hidx i j k l ltac:(left)) as (ix & Eix & Hrange & Hdef).
    cbn [scatter_loop]. rewrite Eix.
    assert ((0 <=? ix)%Z && (ix <? Z.of_nat (dim1 self))%Z = true) as ->.
    { apply andb_true_iff. split; [apply Z.leb_le|apply Z.ltb_lt]; lia. }
    set (self' := set4 self i (Z.to_nat ix) k l src).
    destruct (IH self') as (t & Et & Hwt & Hdims & Hkeep & Hhit & Hmiss).
    { apply set4_well_sized, Hwf. }
    { intros i0 j0 k0 l0 Hin.
      destruct (Hidx i0 j0 k0 l0 ltac:(right; exact Hin)) as (ix0 & E0 & R0 & D0).
      exists ix0. split; [exact E0|]. split; [exact R0|].
      apply set4_defined, D0. }
    exists t. split; [exact Et|]. split; [exact Hwt|]. split; [exact Hdims|].
    assert (Hhead : get4 self' i (Z.to_nat ix) k l = Some src)
      by (apply get4_set4_same, Hdef).
    split; [|split].
    + intros n c h w Hv. apply Hkeep, set4_keeps; assumption.
    + intros i0 j0 k0 l0 ix0 Hin E0.
      apply elem_of_cons in Hin as [E|Hin].
      * injection E as -> -> -> ->.
        assert (ix0 = ix) as -> by congruence.
        apply Hkeep, Hhead.
      * eapply Hhit; eassumption.
    + intros n c h w Hno.
      rewrite Hmiss.
      * apply get4_set4_other. eapply Hno; [left|exact Eix].
      * intros i0 j0 k0 l0 ix0 Hin E0. eapply Hno; [right; exact Hin|exact E0].
Qed.

End Cells.

Lemma elem_of_positions n c h w i j k l :
  (i, j, k, l) ∈ positions n c h w <-> i < n /\ j < c /\ k < h /\ l < w.
Proof.
  unfold positions. split.
  - intros H.
    apply list_elem_of_bind in H as (i' & H & Hi).
    apply list_elem_of_bind in H as (j' & H & Hj).
    apply list_elem_of_bind in H as (k' & H & Hk).
    apply list_elem_of_bind in H as (l' & H & Hl).
    apply list_elem_of_singleton in H. injection H as -> -> -> ->.
    apply elem_of_seq in Hi, Hj, Hk, Hl. lia.
  - intros (Hi & Hj & Hk & Hl).
    apply list_elem_of_bind. exists i. split; [|apply elem_of_seq; lia].
    apply list_elem_of_bind. exists j. split; [|apply elem_of_seq; lia].
    apply list_elem_of_bind. exists k. split; [|apply elem_of_seq; lia].
    apply list_elem_of_bind. exists l. split; [|apply elem_of_seq; lia].
    apply list_elem_of_singleton. reflexivity.
Qed.

Lemma zeros_well_sized n c h w : well_sized (zeros n c h w).
Proof.
  unfold well_sized, zeros. cbn [entries dim0 dim1 dim2 dim3].
  split; [apply length_replicate|].
  apply Forall_replicate. split; [apply length_replicate|].
  apply Forall_replicate. split; [apply length_replicate|].
  apply Forall_replicate, length_replicate.
Qed.

Lemma get4_zeros n c h w i j k l :
  i < n -> j < c -> k < h -> l < w -> get4 (zeros n c h w) i j k l = Some 0%Q.
Proof.
  intros Hi Hj Hk Hl. unfold get4, zeros. cbn [entries].
  rewrite lookup_replicate_2 by exact Hi.
  rewrite lookup_replicate_2 by exact Hj.
  rewrite lookup_replicate_2 by exact Hk.
  apply lookup_replicate_2, Hl.
Qed.

(** C10. For a label tensor of size N x 1 x H x W with entries in
    [0, num_classes), [make_one_hot] returns a tensor of size
    N x num_classes x H x W which, at every position (n, h, w), holds 1 in
    channel labels[n,0,h,w] and 0 in every other channel. *)
Theorem make_one_hot_spec (labels : tensor4 Z) (num_classes : nat)
    (device : string) :
  wf4 labels = true ->
  dim1 labels = 1 ->
  (forall n h w l, get4 labels n 0 h w = Some l ->
     (0 <= l < Z.of_nat num_classes)%Z) ->
  exists target,
    make_one_hot labels num_classes device = Ok target
    /\ wf4 target = true
    /\ (dim0 target, dim1 target, dim2 target, dim3 target)
       = (dim0 labels, num_classes, dim2 labels, dim3 labels)
    /\ forall n h w, n < dim0 labels -> h < dim2 labels -> w < dim3 labels ->
         exists l, get4 labels n 0 h w = Some l
           /\ forall c, c < num_classes ->
                get4 target n c h w
                = Some (if decide (Z.of_nat c = l) then 1%Q else 0%Q).
Proof.
  intros Hwf Hone Hrange.
  apply wf4_well_sized in Hwf.
  unfold make_one_hot.
  replace (if String.eqb device "cuda"
           then zeros (dim0 labels) num_classes (dim2 labels) (dim3 labels)
           else zeros (dim0 labels) num_classes (dim2 labels) (dim3 labels))
    with (zeros (dim0 labels) num_classes (dim2 labels) (dim3 labels))
    by (destruct (String.eqb device "cuda"); reflexivity).
  set (one_hot := zeros (dim0 labels) num_classes (dim2 labels) (dim3 labels)).
  unfold scatter_1. cbn [one_hot zeros dim0 dim2 dim3].
  rewrite !Nat.leb_refl. cbn [andb].
  fold one_hot.
  destruct (scatter_loop_spec labels 1%Q
              (positions (dim0 labels) (dim1 labels) (dim2 labels) (dim3 labels))
              one_hot) as (t & Et & Hwt & Hdims & _ & Hhit & Hmiss).
  { apply zeros_well_sized. }
  { intros i j k l Hin. apply elem_of_positions in Hin as (Hi & Hj & Hk & Hl).
    assert (j = 0) as -> by lia.
    destruct (get4_in_range labels i 0 k l Hwf) as [ix Eix]; try lia.
    exists ix. split; [exact Eix|].
    pose proof (Hrange _ _ _ _ Eix) as Hr. split; [exact Hr|].
    unfold one_hot. rewrite get4_zeros; eauto; lia. }
  exists t. split; [exact Et|]. split; [apply wf4_well_sized, Hwt|].
  split; [exact Hdims|].
  intros n h w Hn Hh Hw.
  destruct (get4_in_range labels n 0 h w Hwf) as [l El]; try lia.
  exists l. split; [exact El|]. intros c Hc.
  pose proof (Hrange _ _ _ _ El) as Hr.
  case_decide as Ecl.
  - replace c with (Z.to_nat l) by lia.
    apply (Hhit n 0 h w l); [|exact El].
    apply elem_of_positions. lia.
  - rewrite Hmiss.
    + unfold one_hot. apply get4_zeros; assumption.
    + intros i j k l0 ix Hin Eix E.
      apply elem_of_positions in Hin as (Hi & Hj & Hk & Hl).
      assert (j = 0) by lia. subst j.
      injection E as -> Ec -> ->.
      assert (ix = l) by congruence. subst ix. lia.
Qed.

Lemma make_one_hot_spec_witness :
  exists target,
    make_one_hot sample_labels 3 "cpu" = Ok target
    /\ get4 target 0 2 0 1 = Some 1%Q /\ get4 target 0 0 0 1 = Some 0%Q.
Proof.
  destruct (make_one_hot_spec sample_labels 3 "cpu") as (t & Et & _ & _ & Hcell).
  - reflexivity.
  - reflexivity.
  - intros n h w l.
    destruct n as [|n]; [|destruct n; discriminate].
    destruct h as [|[|h]]; [| |destruct h; discriminate];
      (destruct w as [|[|w]]; [| |destruct w; discriminate]);
      cbn; intros [= <-]; lia.
  - exists t. split; [exact Et|].
    destruct (Hcell 0 0 1) as (l & El & Hc); cbn; try lia.
    cbn in El. injection El as <-.
    split; [apply (Hc 2)|apply (Hc 0)]; lia.
Defined.

End OneHotFacts.

(** * Properties of the trainer *)

Module TrainerFacts.
Import Trainer Props.

Section Generic.
Context `{F : Framework}.

(** ** Running [bind] *)

Lemma bind_Ok {A B} (m : M A) (f : A -> M B) (s : state) (a : A) :
  value (m s) = Ok a ->
  bind m f s = mkOut (value (f a (final (m s)))) (final (f a (final (m s))))
                     (log (m s) ++ log (f a (final (m s)))).
Proof. intros E. unfold bind. rewrite E. reflexivity. Qed.

Lemma bind_Raise {A B} (m : M A) (f : A -> M B) (s : state) (e : exn) :
  value (m s) = Raise e ->
  bind m f s = mkOut (Raise e) (final (m s)) (log (m s)).
Proof. intros E. unfold bind. rewrite E. reflexivity. Qed.

(** A loop whose body never raises, in the states an invariant allows,
    runs to its end. *)
Lemma for_each_total {A} (Inv : state -> Prop) (body : A -> M unit)
    (xs : list A) :
  (forall x s, Inv s -> value (body x s) = Ok tt /\ Inv (final (body x s))) ->
  forall s, Inv s -> value (for_each xs body s) = Ok tt.
Proof.
  intros Hbody. induction xs as [|x xs IH]; intros s Hs; [reflexivity|].
  destruct (Hbody x s Hs) as [Hv Hf].
  cbn [for_each]. rewrite (bind_Ok _ _ _ tt Hv). cbn [value].
  apply IH, Hf.
Qed.

(** ** The rules of [hoare] *)

Lemma hoare_ret {A} (Inv : state -> Prop) P (Q : A -> state -> Prop) (a : A) :
  hoare (fun s => Inv s /\ Q a s) (ret a) Inv P Q.
Proof.
  intros s [Hi Hq]. cbn. split; [exact Hi|]. split; [constructor|].
  intros a' [= E]. rewrite <- E. exact Hq.
Qed.

Lemma hoare_raise {A} (Inv : state -> Prop) P (Q : A -> state -> Prop) (e : exn) :
  hoare Inv (raise e) Inv P Q.
Proof.
  intros s Hi. cbn. split; [exact Hi|]. split; [constructor|]. discriminate.
Qed.

Lemma hoare_read {A} (Pre Inv : state -> Prop) P (Q : A -> state -> Prop)
    (f : state -> A) :
  (forall s, Pre s -> Inv s /\ Q (f s) s) ->
  hoare Pre (read f) Inv P Q.
Proof.
  intros H s Hp. destruct (H s Hp) as [Hi Hq]. cbn.
  split; [exact Hi|]. split; [constructor|]. intros a [= E]. rewrite <- E. exact Hq.
Qed.

Lemma hoare_call {A} (Pre Inv : state -> Prop) (P : event -> Prop)
    (Q : A -> state -> Prop) (e : state -> event) (f : state -> A * state) :
  (forall s, Pre s -> Inv (snd (f s)) /\ P (e s) /\ Q (fst (f s)) (snd (f s))) ->
  hoare Pre (call e f) Inv P Q.
Proof.
  intros H s Hp. destruct (H s Hp) as (Hi & He & Hq). cbn.
  split; [exact Hi|]. split; [repeat constructor; exact He|].
  intros a [= E]. rewrite <- E. exact Hq.
Qed.

Lemma hoare_bind {A B} (Pre Inv : state -> Prop) P (Q1 : A -> state -> Prop)
    (Q2 : B -> state -> Prop) (m : M A) (f : A -> M B) :
  hoare Pre m Inv P Q1 ->
  (forall a, hoare (fun s => Inv s /\ Q1 a s) (f a) Inv P Q2) ->
  hoare Pre (bind m f) Inv P Q2.
Proof.
  intros Hm Hf s Hp. destruct (Hm s Hp) as (Hi & Hl & Hq).
  destruct (value (m s)) as [a|e] eqn:E.
  - rewrite (bind_Ok _ _ _ a E). cbn [value final log].
    destruct (Hf a (final (m s)) (conj Hi (Hq a eq_refl))) as (Hi' & Hl' & Hq').
    split; [exact Hi'|]. split; [apply Forall_app; split; assumption|exact Hq'].
  - rewrite (bind_Raise _ _ _ e E). cbn [value final log].
    split; [exact Hi|]. split; [exact Hl|]. discriminate.
Qed.

Lemma hoare_weaken {A} (Pre Pre' Inv : state -> Prop) P
    (Q Q' : A -> state -> Prop) (m : M A) :
  hoare Pre m Inv P Q ->
  (forall s, Pre' s -> Pre s) ->
  (forall a s, Inv s -> Q a s -> Q' a s) ->
  hoare Pre' m Inv P Q'.
Proof.
  intros Hm Hpre Hq s Hp. destruct (Hm s (Hpre s Hp)) as (Hi & Hl & Hv).
  split; [exact Hi|]. split; [exact Hl|]. intros a E. apply Hq; auto.
Qed.

Lemma hoare_for_each {A} (Inv : state -> Prop) P (body : A -> M unit)
    (xs : list A) :
  (forall x, hoare Inv (body x) Inv P (fun _ _ => True)) ->
  hoare Inv (for_each xs body) Inv P (fun _ _ => True).
Proof.
  intros Hbody. induction xs as [|x xs IH]; cbn [for_each].
  - intros s Hi. cbn. split; [exact Hi|]. split; [constructor|]. auto.
  - eapply hoare_bind; [apply Hbody|].
    intros u. eapply hoare_weaken; [exact IH| |auto]. intros s [Hi _]. exact Hi.
Qed.

(** [no_grad] keeps an invariant that does not read the gradient mode. *)
Lemma hoare_no_grad {A} (Inv : state -> Prop) P (Q : A -> state -> Prop)
    (m : M A) :
  (forall s b, Inv s -> Inv (set_grad_enabled b s)) ->
  (forall a s b, Q a s -> Q a (set_grad_enabled b s)) ->
  hoare Inv m Inv P Q ->
  hoare Inv (no_grad m) Inv P Q.
Proof.
  intros Hinv HQ Hm s Hi. unfold no_grad. cbn [value final log].
  destruct (Hm (set_grad_enabled false s) (Hinv _ _ Hi)) as (Hi' & Hl & Hq).
  split; [apply Hinv, Hi'|]. split; [exact Hl|].
  intros a E. apply HQ, Hq, E.
Qed.

(** ** One training batch *)

Ltac run_batch self s :=
  unfold Train_batch, batch_gradient, batch_graph;
  let cls := fresh "cls" in
  destruct s as [? ? ? ? ? [cls ?] ?];
  destruct (Qlt_le_dec 0 (Train_L1lambda self));
  destruct (Train_scheduler self); destruct cls; reflexivity.

(** A batch returns unless it steps a [ReduceLROnPlateau]. *)
Lemma Train_batch_value (self : Train) (b : Data * Target) (s : state) :
  can_step self s -> value (Train_batch self b s) = Ok tt.
Proof.
  unfold can_step, scheduler_class. intros Hgood.
  destruct b as [data target]. unfold Train_batch.
  destruct s as [tr ps g ge o [cls st] r].
  destruct (Qlt_le_dec 0 (Train_L1lambda self));
    destruct (Train_scheduler self);
    try (specialize (Hgood eq_refl); cbn in Hgood; subst cls);
    reflexivity.
Qed.

Lemma Train_batch_raises (self : Train) (b : Data * Target) (s : state) :
  truthy (Train_scheduler self) = true ->
  scheduler_class ReduceLROnPlateau s ->
  value (Train_batch self b s)
  = Raise (TypeError "step() missing 1 required positional argument: 'metrics'").
Proof.
  unfold scheduler_class. intros Hsched Hcls.
  destruct b as [data target]. unfold Train_batch.
  destruct s as [tr ps g ge o [cls st] r]. cbn in Hcls. subst cls.
  destruct (Qlt_le_dec 0 (Train_L1lambda self));
    destruct (Train_scheduler self); try discriminate Hsched; reflexivity.
Qed.

Lemma Train_batch_names (self : Train) (b : Data * Target) (s : state) :
  map name_of (log (Train_batch self b s))
  = [begin_batch_; zero_grad_; forward_; lossfn_; backward_; optimizer_step_;
     track_train_loss_; track_train_num_correct_; end_batch_; set_description_]
    ++ (if truthy (Train_scheduler self) then [scheduler_step_] else []).
Proof. destruct b as [data target]. run_batch self s. Qed.

Lemma Train_batch_training (self : Train) (b : Data * Target) (s : state) :
  training (final (Train_batch self b s)) = training s.
Proof. destruct b as [data target]. run_batch self s. Qed.

Lemma Train_batch_class (self : Train) (b : Data * Target) (s : state) :
  sched_cls (sched (final (Train_batch self b s))) = sched_cls (sched s).
Proof. destruct b as [data target]. run_batch self s. Qed.

Lemma Train_batch_stepped_with (self : Train) (b : Data * Target) (s : state) :
  stepped_with (log (Train_batch self b s))
  = [grad_acc grad_zero (batch_gradient self s b)].
Proof. destruct b as [data target]. run_batch self s. Qed.

Lemma Train_batch_set_grad (self : Train) (b : Data * Target) (s : state)
    (g : Grad) :
  Train_batch self b (set_grad g s) = Train_batch self b s.
Proof. destruct b as [data target]. run_batch self s. Qed.

Lemma Train_batch_ok (self : Train) (b : Data * Target) (s : state) :
  can_step self s ->
  value (Train_batch self b s) = Ok tt
  /\ can_step self (final (Train_batch self b s)).
Proof.
  intros Hgood. split; [apply Train_batch_value, Hgood|].
  intros Hsched. unfold scheduler_class. rewrite Train_batch_class.
  exact (Hgood Hsched).
Qed.

(** ** A whole [Train.run] *)

Lemma Train_run_unfold (self : Train) (s0 : state) :
  Train_run self s0
  = let o := for_each (Train_dataloader self) (Train_batch self)
               (set_training true s0) in
    mkOut (value o) (final o) (EModelTrain :: log o).
Proof. reflexivity. Qed.

(** The loop, one batch on: it goes on when the batch returns, and ends
    with the batch when it raises. *)
Lemma Train_loop_step (self : Train) (b : Data * Target)
    (batches : list (Data * Target)) (s : state) :
  (value (Train_batch self b s) = Ok tt
   /\ batch_states self (b :: batches) s
      = (s, b) :: batch_states self batches (final (Train_batch self b s))
   /\ for_each (b :: batches) (Train_batch self) s
      = let o := for_each batches (Train_batch self)
                   (final (Train_batch self b s)) in
        mkOut (value o) (final o) (log (Train_batch self b s) ++ log o))
  \/ (exists e, value (Train_batch self b s) = Raise e
      /\ batch_states self (b :: batches) s = [(s, b)]
      /\ for_each (b :: batches) (Train_batch self) s
         = mkOut (Raise e) (final (Train_batch self b s))
                 (log (Train_batch self b s))).
Proof.
  cbn [for_each batch_states].
  destruct (value (Train_batch self b s)) as [[]|e] eqn:E.
  - left. rewrite (bind_Ok _ _ _ tt E). auto.
  - right. exists e. rewrite (bind_Raise _ _ _ e E). auto.
Qed.

Lemma Train_loop_log (self : Train) (batches : list (Data * Target)) :
  forall s,
    log (for_each batches (Train_batch self) s)
    = concat (map (fun sb => log (Train_batch self (snd sb) (fst sb)))
                  (batch_states self batches s)).
Proof.
  induction batches as [|b batches IH]; intros s; [reflexivity|].
  destruct (Train_loop_step self b batches s)
    as [(_ & -> & ->)|(e & _ & -> & ->)]; cbv zeta; cbn [log map concat fst snd].
  - rewrite IH. reflexivity.
  - rewrite app_nil_r. reflexivity.
Qed.

Lemma Train_loop_value (self : Train) (batches : list (Data * Target)) (s : state) :
  can_step self s ->
  value (for_each batches (Train_batch self) s) = Ok tt.
Proof. apply for_each_total. intros b s'. apply Train_batch_ok. Qed.

(** Unless the scheduler cannot be stepped, every batch of the loader is
    processed. *)
Lemma batch_states_all (self : Train) (batches : list (Data * Target)) :
  forall s, can_step self s -> map snd (batch_states self batches s) = batches.
Proof.
  induction batches as [|b batches IH]; intros s Hs; [reflexivity|].
  destruct (Train_batch_ok self b s Hs) as [Hv Hf].
  cbn [batch_states]. rewrite Hv. cbn [map snd]. rewrite IH by exact Hf.
  reflexivity.
Qed.

Lemma batch_states_training (self : Train) (batches : list (Data * Target)) :
  forall s, Forall (fun sb => training (fst sb) = training s)
                   (batch_states self batches s).
Proof.
  induction batches as [|b batches IH]; intros s; [constructor|].
  destruct (Train_loop_step self b batches s)
    as [(_ & -> & _)|(e & _ & -> & _)].
  - constructor; [reflexivity|].
    rewrite <- (Train_batch_training self b s). apply IH.
  - repeat constructor.
Qed.

Lemma Train_run_value (self : Train) (s0 : state) :
  can_step self s0 -> value (Train_run self s0) = Ok tt.
Proof.
  intros Hs. rewrite Train_run_unfold.
  exact (Train_loop_value self _ (set_training true s0) Hs).
Qed.

(** A runner that holds a [ReduceLROnPlateau] stops in its first batch. *)
Lemma Train_run_plateau (self : Train) (b : Data * Target)
    (rest : list (Data * Target)) (s0 : state) :
  truthy (Train_scheduler self) = true ->
  scheduler_class ReduceLROnPlateau s0 ->
  Train_dataloader self = b :: rest ->
  run_batches self s0 = [(set_training true s0, b)]
  /\ Train_run self s0
     = mkOut (Raise (TypeError
                "step() missing 1 required positional argument: 'metrics'"))
             (final (Train_batch self b (set_training true s0)))
             (EModelTrain :: log (Train_batch self b (set_training true s0))).
Proof.
  intros Hsched Hcls Eloader.
  pose proof (Train_batch_raises self b (set_training true s0) Hsched Hcls) as Hv.
  unfold run_batches. rewrite Train_run_unfold, Eloader.
  destruct (Train_loop_step self b rest (set_training true s0))
    as [(Hok & _)|(e & He & -> & ->)]; [congruence|].
  rewrite Hv in He. injection He as <-. split; reflexivity.
Qed.

(** ** The L1 term *)

Lemma torch_sum_from (t : tensor) (a : Q) :
  (fold_left Qplus (tensor_abs t) a == a + sum_abs t)%Q.
Proof.
  revert a. unfold tensor_abs, sum_abs.
  induction t as [|x t IH]; intros a; cbn [map fold_left fold_right].
  - ring.
  - rewrite IH. ring.
Qed.

Lemma torch_sum_abs (t : tensor) : (torch_sum (tensor_abs t) == sum_abs t)%Q.
Proof. unfold torch_sum. rewrite torch_sum_from. ring. Qed.

Lemma l1_reg_loss_from (ps : list tensor) (a : Q) :
  (fold_left (fun reg_loss param => reg_loss + torch_sum (tensor_abs param))
             ps a == a + l1_norm ps)%Q.
Proof.
  revert a. unfold l1_norm.
  induction ps as [|p ps IH]; intros a; cbn [fold_left fold_right].
  - ring.
  - rewrite IH, torch_sum_abs. ring.
Qed.

Lemma l1_reg_loss_norm (ps : list tensor) : (l1_reg_loss ps == l1_norm ps)%Q.
Proof. unfold l1_reg_loss. rewrite l1_reg_loss_from. ring. Qed.

Lemma Train_batch_backpropagated (self : Train) (data : Data) (target : Target)
    (s : state) :
  exists loss,
    backpropagated (log (Train_batch self (data, target) s)) = [loss]
    /\ ((0 < Train_L1lambda self)%Q ->
        (item loss == Train_lossfn self (forward (training s) (params s) data) target
                      + Train_L1lambda self * l1_norm (params s))%Q
        /\ grad_fn loss = GAddL1 (GLossfn data target) (Train_L1lambda self))
    /\ ((Train_L1lambda self == 0)%Q ->
        item loss = Train_lossfn self (forward (training s) (params s) data) target
        /\ grad_fn loss = GLossfn data target).
Proof.
  unfold Train_batch. destruct s as [tr ps g ge o [cls st] r].
  destruct (Qlt_le_dec 0 (Train_L1lambda self)) as [Hpos|Hle];
    destruct (Train_scheduler self); destruct cls;
    (eexists; split; [reflexivity|];
     cbn [item grad_fn training params]; split; intros Hlam).
  all: try (split; [rewrite l1_reg_loss_norm; reflexivity|reflexivity]).
  all: try (rewrite Hlam in Hpos; exfalso; exact (Qlt_irrefl _ Hpos)).
  all: try (exfalso; exact (Qlt_not_le _ _ Hlam Hle)).
  all: split; reflexivity.
Qed.

Lemma Train_loop_Forall2 (self : Train)
    (P : state * (Data * Target) -> loss_tensor -> Prop) :
  (forall s b, exists loss,
      backpropagated (log (Train_batch self b s)) = [loss] /\ P (s, b) loss) ->
  forall batches s,
    Forall2 P (batch_states self batches s)
      (backpropagated (log (for_each batches (Train_batch self) s))).
Proof.
  intros Hb. induction batches as [|b batches IH]; intros s; [constructor|].
  destruct (Hb s b) as (loss & El & Hl).
  destruct (Train_loop_step self b batches s)
    as [(_ & -> & ->)|(e & _ & -> & ->)]; cbv zeta; cbn [log].
  - unfold backpropagated at 1. rewrite omap_app.
    fold (backpropagated (log (Train_batch self b s))). rewrite El.
    constructor; [exact Hl|apply IH].
  - rewrite El. repeat constructor. exact Hl.
Qed.

(** C1. In every batch of [Train.run], the loss handed to [backward] is
    lossfn(model(data), target) + L1lambda * (sum over the parameters of
    the sum of the absolute values of their entries) when L1lambda > 0,
    and lossfn(model(data), target) itself, with no regularisation term
    in its graph, when L1lambda = 0; model and parameters are those of
    the state in which the batch is processed. *)
Theorem Train_run_backpropagated (self : Train) (s0 : state) :
  let lam := Train_L1lambda self in
  let plain (sb : state * (Data * Target)) :=
    Train_lossfn self
      (forward (training (fst sb)) (params (fst sb)) (fst (snd sb)))
      (snd (snd sb)) in
  ((0 < lam)%Q ->
   Forall2 (fun sb loss =>
              (item loss == plain sb + lam * l1_norm (params (fst sb)))%Q
              /\ grad_fn loss = GAddL1 (GLossfn (fst (snd sb)) (snd (snd sb))) lam)
           (run_batches self s0) (backpropagated (log (Train_run self s0))))
  /\ ((lam == 0)%Q ->
      Forall2 (fun sb loss =>
                 item loss = plain sb
                 /\ grad_fn loss = GLossfn (fst (snd sb)) (snd (snd sb)))
              (run_batches self s0) (backpropagated (log (Train_run self s0)))).
Proof.
  intros lam plain. rewrite Train_run_unfold. cbn [log].
  change (backpropagated (EModelTrain :: ?l)) with (backpropagated l).
  unfold run_batches.
  split; intros Hlam; apply Train_loop_Forall2; intros s [data target];
    destruct (Train_batch_backpropagated self data target s)
      as (loss & El & Hpos & Hzero);
    exists loss; (split; [exact El|]); cbn [fst snd]; auto.
Qed.

(** C2, as the code has it. In every batch of [Train.run] the gradient
    buffer is zeroed before the backward pass: the buffer
    [optimizer.step] sees is the gradient of the loss of that batch
    alone, and what an earlier batch left in the buffer has no effect on
    the batch at all. *)
Theorem Train_run_fresh_gradients (self : Train) (s0 : state) :
  stepped_with (log (Train_run self s0))
  = map (fun sb => grad_acc grad_zero (batch_gradient self (fst sb) (snd sb)))
        (run_batches self s0)
  /\ Forall (fun sb => forall g,
               Train_batch self (snd sb) (set_grad g (fst sb))
               = Train_batch self (snd sb) (fst sb))
            (run_batches self s0).
Proof.
  split.
  - rewrite Train_run_unfold. cbn [log].
    change (stepped_with (EModelTrain :: ?l)) with (stepped_with l).
    unfold run_batches. generalize (set_training true s0).
    induction (Train_dataloader self) as [|b batches IH]; intros s;
      [reflexivity|].
    destruct (Train_loop_step self b batches s)
      as [(_ & -> & ->)|(e & _ & -> & ->)]; cbv zeta; cbn [log map fst snd].
    + unfold stepped_with at 1. rewrite omap_app.
      fold (stepped_with (log (Train_batch self b s))).
      rewrite Train_batch_stepped_with. cbn [app]. f_equal. apply IH.
    + apply Train_batch_stepped_with.
  - apply Forall_forall. intros [s b] _ g. apply Train_batch_set_grad.
Qed.

(** C3. After [model.train()], every batch [Train.run] processes makes its
    calls in this order: begin_batch, optimizer.zero_grad, the forward
    pass, the loss, backward, optimizer.step, the two tracking calls,
    end_batch, set_description and, last, scheduler.step when the runner
    has a scheduler.  The run processes every batch of the loader and
    returns, unless the runner has a [ReduceLROnPlateau] scheduler: then
    the scheduler.step of the first batch raises, for want of its
    [metrics], and that batch is the only one processed. *)
Theorem Train_run_call_order (self : Train) (s0 : state) :
  let o := Train_run self s0 in
  map name_of (log o)
  = model_train_
    :: concat (map (fun _ =>
                      [begin_batch_; zero_grad_; forward_; lossfn_;
                       backward_; optimizer_step_; track_train_loss_;
                       track_train_num_correct_; end_batch_;
                       set_description_]
                      ++ (if truthy (Train_scheduler self)
                          then [scheduler_step_] else []))
                   (run_batches self s0))
  /\ ((truthy (Train_scheduler self) = true -> scheduler_class OtherScheduler s0) ->
      value o = Ok tt
      /\ map snd (run_batches self s0) = Train_dataloader self)
  /\ (truthy (Train_scheduler self) = true ->
      scheduler_class ReduceLROnPlateau s0 ->
      forall b rest, Train_dataloader self = b :: rest ->
        value o = Raise (TypeError
                    "step() missing 1 required positional argument: 'metrics'")
        /\ map snd (run_batches self s0) = [b]).
Proof.
  cbv zeta. split; [|split].
  - rewrite Train_run_unfold. cbn [log map name_of]. f_equal.
    rewrite Train_loop_log. fold (run_batches self s0).
    induction (run_batches self s0) as [|[s b] l IH]; [reflexivity|].
    cbn [map concat fst snd]. rewrite map_app, Train_batch_names, IH.
    reflexivity.
  - intros Hgood. split; [exact (Train_run_value self s0 Hgood)|].
    exact (batch_states_all self _ (set_training true s0) Hgood).
  - intros Hsched Hcls b rest Eloader.
    destruct (Train_run_plateau self b rest s0 Hsched Hcls Eloader) as [-> ->].
    split; reflexivity.
Qed.

(** ** Sequencing with an invariant *)

Lemma hoare_seq {A B} (Inv : state -> Prop) P (Q : B -> state -> Prop)
    (m : M A) (f : A -> M B) :
  hoare Inv m Inv P (fun _ _ => True) ->
  (forall a, hoare Inv (f a) Inv P Q) ->
  hoare Inv (bind m f) Inv P Q.
Proof.
  intros Hm Hf. eapply hoare_bind; [exact Hm|].
  intros a. eapply hoare_weaken; [apply Hf| |auto]. intros s [Hi _]. exact Hi.
Qed.

Lemma hoare_call_inv {A} (Inv : state -> Prop) (P : event -> Prop)
    (e : state -> event) (f : state -> A * state) :
  (forall s, Inv s -> Inv (snd (f s)) /\ P (e s)) ->
  hoare Inv (call e f) Inv P (fun _ _ => True).
Proof.
  intros H. apply hoare_call. intros s Hs. destruct (H s Hs). auto.
Qed.

Lemma hoare_ret_inv {A} (Inv : state -> Prop) P (a : A) :
  hoare Inv (ret a) Inv P (fun _ _ => True).
Proof.
  eapply hoare_weaken; [apply hoare_ret| |auto]. intros s Hs. split; [exact Hs|exact I].
Qed.

(** [pbar.write] with a float for [file] never returns. *)
Lemma hoare_pbar_write_float (Inv : state -> Prop) (P : event -> Prop)
    (msg : string) (x : Q) :
  P (EWrite msg (PyFloat x)) ->
  hoare Inv (pbar_write msg (PyFloat x)) Inv P (fun _ _ => False).
Proof.
  intros HP s Hs. cbn. split; [exact Hs|]. split; [repeat constructor; exact HP|].
  discriminate.
Qed.

Lemma hoare_pbar_write_stdout (Inv : state -> Prop) (P : event -> Prop)
    (msg : string) :
  P (EWrite msg PyNone) ->
  hoare Inv (pbar_write msg PyNone) Inv P (fun _ _ => True).
Proof.
  intros HP s Hs. cbn. split; [exact Hs|]. split; [repeat constructor; exact HP|].
  auto.
Qed.

(** ** Which scheduler steps a run can make

    [P] holds of every call that is not a scheduler step; the three
    runners then log only calls satisfying [P], given that [P] holds of
    the scheduler steps their configuration allows.  The class of the
    scheduler object never changes. *)

Section Steps.
Variable c : sched_class.
Variable P : event -> Prop.
Hypothesis P_other : forall e, name_of e <> scheduler_step_ -> P e.

Ltac other := apply P_other; discriminate.

Lemma Train_batch_steps (self : Train) (b : Data * Target) :
  (truthy (Train_scheduler self) = true -> P ESchedStepBatch) ->
  hoare (scheduler_class c) (Train_batch self b) (scheduler_class c) P
        (fun _ _ => True).
Proof.
  intros Hstep s Hs. split; [|split; [|auto]].
  - unfold scheduler_class. rewrite Train_batch_class. exact Hs.
  - clear Hs. destruct b as [data target]. unfold Train_batch.
    destruct s as [tr ps g ge o [cls st] r].
    destruct (Qlt_le_dec 0 (Train_L1lambda self));
      destruct (Train_scheduler self); destruct cls; cbn.
    all: repeat (constructor; [first [other | apply Hstep; reflexivity]|]).
    all: constructor.
Qed.

Lemma Train_run_steps (self : Train) :
  (truthy (Train_scheduler self) = true -> P ESchedStepBatch) ->
  hoare (scheduler_class c) (Train_run self) (scheduler_class c) P
        (fun _ _ => True).
Proof.
  intros Hstep. unfold Train_run. apply hoare_seq.
  - apply hoare_call_inv. intros s Hs. split; [exact Hs|other].
  - intros _. apply hoare_for_each. intros b. apply Train_batch_steps, Hstep.
Qed.

Lemma Test_batch_steps (self : Test) (b : Data * Target) :
  hoare (scheduler_class c) (Test_batch self b) (scheduler_class c) P
        (fun _ _ => True).
Proof.
  intros s Hs. destruct b as [data target]. cbn.
  split; [exact Hs|]. split; [|auto].
  repeat (constructor; [other|]). constructor.
Qed.

Lemma Test_run_steps (self : Test) :
  hoare (scheduler_class c) (Test_run self) (scheduler_class c) P
        (fun _ _ => True).
Proof.
  unfold Test_run. apply hoare_seq.
  - apply hoare_call_inv. intros s Hs. split; [exact Hs|other].
  - intros _. apply hoare_no_grad; [auto|auto|].
    apply hoare_seq; [apply hoare_for_each, Test_batch_steps|]. intros _.
    eapply hoare_bind with (Q1 := fun _ _ => True).
    { destruct (truthy (Test_scheduler self)).
      - apply hoare_read. auto.
      - apply hoare_ret_inv. }
    intros [|].
    + eapply hoare_weaken with (Pre := scheduler_class c) (Q := fun _ _ => True);
        [|intros s [Hs _]; exact Hs|auto].
      apply hoare_seq.
      { apply hoare_call_inv. intros s Hs. split; [exact Hs|other]. }
      intros test_loss.
      eapply hoare_bind; [apply hoare_pbar_write_float; other|].
      intros _ s [_ []].
    + eapply hoare_weaken; [apply hoare_ret_inv| |auto]. intros s [Hs _]. exact Hs.
Qed.

Lemma ModelTrainer_epoch_steps (self : ModelTrainer) (epoch : Z) :
  (truthy (Train_scheduler (train self)) = true -> P ESchedStepBatch) ->
  (truthy (scheduler self) = true -> batch_scheduler self = false ->
   c = OtherScheduler -> P ESchedStepEpoch) ->
  hoare (scheduler_class c) (ModelTrainer_epoch self epoch) (scheduler_class c) P
        (fun _ _ => True).
Proof.
  intros Hbatch Hepoch. unfold ModelTrainer_epoch.
  apply hoare_seq.
  { apply hoare_call_inv. intros s Hs. split; [exact Hs|other]. }
  intros _. apply hoare_seq; [apply Train_run_steps, Hbatch|].
  intros _. apply hoare_seq; [apply Test_run_steps|].
  intros _. apply hoare_seq; [apply hoare_read; auto|].
  intros lr. apply hoare_seq.
  { apply hoare_call_inv. intros s Hs. split; [exact Hs|other]. }
  intros msg. apply hoare_seq; [apply hoare_pbar_write_stdout; other|].
  intros _. apply hoare_seq.
  { apply hoare_call_inv. intros s Hs. split; [exact Hs|other]. }
  intros _.
  eapply hoare_bind
    with (Q1 := fun (step : bool) _ =>
                  step = true -> truthy (scheduler self) = true
                                 /\ batch_scheduler self = false
                                 /\ c = OtherScheduler).
  { destruct (truthy (scheduler self)); [destruct (batch_scheduler self)|]; cbn [negb].
    - intros s Hs. cbn. split; [exact Hs|]. split; [constructor|].
      intros a [= <-]. discriminate.
    - intros s Hs. cbn. split; [exact Hs|]. split; [constructor|].
      intros a [= <-]. unfold scheduler_class in Hs. rewrite <- Hs.
      destruct (sched_cls (sched s)); [discriminate|auto].
    - intros s Hs. cbn. split; [exact Hs|]. split; [constructor|].
      intros a [= <-]. discriminate. }
  intros step.
  eapply hoare_weaken
    with (Pre := fun s => scheduler_class c s
                          /\ (step = true -> P ESchedStepEpoch))
         (Q := fun _ _ => True); [| |auto].
  2:{ intros s [Hs Hq]. split; [exact Hs|]. intros E.
      destruct (Hq E) as (? & ? & ?). auto. }
  intros s [Hs Hstep]. destruct s as [tr ps g ge o [cls st] r].
  destruct step; [destruct cls|]; cbn.
  - split; [exact Hs|]. split; [|auto].
    constructor; [apply Hstep; reflexivity|]. constructor.
  - split; [exact Hs|]. split; [|auto].
    constructor; [apply Hstep; reflexivity|]. constructor; [other|constructor].
  - split; [exact Hs|]. split; [|auto]. constructor; [other|constructor].
Qed.

Lemma ModelTrainer_run_steps (self : ModelTrainer) (tbrun : string) (epochs : Z) :
  (truthy (Train_scheduler (train self)) = true -> P ESchedStepBatch) ->
  (truthy (scheduler self) = true -> batch_scheduler self = false ->
   c = OtherScheduler -> P ESchedStepEpoch) ->
  hoare (scheduler_class c) (ModelTrainer_run self tbrun epochs)
        (scheduler_class c) P (fun _ _ => True).
Proof.
  intros Hbatch Hepoch. unfold ModelTrainer_run.
  apply hoare_seq.
  { apply hoare_call_inv. intros s Hs. split; [exact Hs|other]. }
  intros _. apply hoare_seq.
  { apply hoare_for_each. intros epoch. apply ModelTrainer_epoch_steps; assumption. }
  intros _. apply hoare_call_inv. intros s Hs. split; [exact Hs|other].
Qed.

End Steps.

(** ** The evaluation pass *)

Lemma Test_run_unfold (self : Test) (s : state) :
  Test_run self s
  = let o := (for_each (Test_dataloader self) (Test_batch self) ;;
              plateau <- (if truthy (Test_scheduler self)
                          then scheduler_is_plateau else ret false) ;;
              if plateau then
                test_loss <- runmanager_get_test_loss ;;
                pbar_write "In scheduler step with loss of " (PyFloat test_loss) ;;
                test_loss <- runmanager_get_test_loss ;;
                scheduler_step_metrics test_loss
              else ret tt) (set_grad_enabled false (set_training false s)) in
    mkOut (value o) (set_grad_enabled (grad_enabled s) (final o))
          (EModelEval :: log o).
Proof. reflexivity. Qed.

Lemma Test_batch_value (self : Test) (b : Data * Target) (s : state) :
  value (Test_batch self b s) = Ok tt.
Proof. destruct b. reflexivity. Qed.

Lemma Test_batch_ok (self : Test) (b : Data * Target) (s : state) :
  True -> value (Test_batch self b s) = Ok tt /\ True.
Proof. intros _. split; [apply Test_batch_value|exact I]. Qed.

Lemma Test_batch_names (self : Test) (b : Data * Target) (s : state) :
  map name_of (log (Test_batch self b s))
  = [forward_; lossfn_; track_test_loss_; track_test_num_correct_].
Proof. destruct b. reflexivity. Qed.

(** A test batch writes the statistics only, and its forward pass is made
    in the gradient mode of the state. *)
Lemma Test_batch_frame (self : Test) (b : Data * Target) (s1 : state) :
  hoare (only_stats_mutated s1) (Test_batch self b) (only_stats_mutated s1)
        (fun e => grad_enabled s1 = false -> evaluation_call e)
        (fun _ _ => True).
Proof.
  intros s Hs. destruct b as [data target]. cbn.
  split; [exact Hs|]. split; [|auto].
  destruct Hs as (_ & _ & _ & Hg & _).
  repeat (constructor; [cbn; intros; try exact I; congruence|]). constructor.
Qed.

Lemma Test_loop_frame (self : Test) (s1 : state) :
  let o := for_each (Test_dataloader self) (Test_batch self) s1 in
  value o = Ok tt
  /\ only_stats_mutated s1 (final o)
  /\ Forall (fun e => grad_enabled s1 = false -> evaluation_call e) (log o).
Proof.
  cbv zeta.
  split; [exact (for_each_total _ _ _ (Test_batch_ok self) s1 I)|].
  destruct (hoare_for_each _ _ _ (Test_dataloader self)
              (fun b => Test_batch_frame self b s1) s1) as (Hi & Hl & _).
  - repeat split.
  - split; assumption.
Qed.

(** What follows the loop of [Test.run], by the class of the scheduler. *)
Lemma Test_tail_plateau (s : state) :
  scheduler_class ReduceLROnPlateau s ->
  (plateau <- scheduler_is_plateau ;;
   if plateau then
     test_loss <- runmanager_get_test_loss ;;
     pbar_write "In scheduler step with loss of " (PyFloat test_loss) ;;
     test_loss <- runmanager_get_test_loss ;;
     scheduler_step_metrics test_loss
   else ret tt) s
  = mkOut (Raise (AttributeError "'float' object has no attribute 'write'")) s
          [EGetTestLoss;
           EWrite "In scheduler step with loss of "
                  (PyFloat (rm_get_test_loss (stats s)))].
Proof.
  unfold scheduler_class. intros Hcls.
  unfold bind at 1. cbn [scheduler_is_plateau read value final log].
  rewrite Hcls. reflexivity.
Qed.

Lemma Test_tail_other (s : state) :
  scheduler_class OtherScheduler s ->
  (plateau <- scheduler_is_plateau ;;
   if plateau then
     test_loss <- runmanager_get_test_loss ;;
     pbar_write "In scheduler step with loss of " (PyFloat test_loss) ;;
     test_loss <- runmanager_get_test_loss ;;
     scheduler_step_metrics test_loss
   else ret tt) s
  = mkOut (Ok tt) s [].
Proof.
  unfold scheduler_class. intros Hcls.
  unfold bind at 1. cbn [scheduler_is_plateau read value final log].
  rewrite Hcls. reflexivity.
Qed.

(** With a [ReduceLROnPlateau] scheduler the pass ends in [pbar.write]. *)
Lemma Test_run_plateau (self : Test) (s : state) :
  truthy (Test_scheduler self) = true ->
  scheduler_class ReduceLROnPlateau s ->
  Test_run self s
  = let loop := for_each (Test_dataloader self) (Test_batch self)
                  (set_grad_enabled false (set_training false s)) in
    mkOut (Raise (AttributeError "'float' object has no attribute 'write'"))
          (set_grad_enabled (grad_enabled s) (final loop))
          (EModelEval
           :: log loop
           ++ [EGetTestLoss;
               EWrite "In scheduler step with loss of "
                      (PyFloat (rm_get_test_loss (stats (final loop))))]).
Proof.
  intros Hsched Hcls. rewrite Test_run_unfold. cbv zeta.
  destruct (Test_loop_frame self (set_grad_enabled false (set_training false s)))
    as (Hv & (_ & _ & _ & _ & _ & Hs) & _).
  rewrite (bind_Ok _ _ _ tt Hv). cbn [value final log].
  rewrite Hsched, Test_tail_plateau; [reflexivity|].
  unfold scheduler_class. rewrite Hs. exact Hcls.
Qed.

(** Without one it runs to its end. *)
Lemma Test_run_plain (self : Test) (s : state) :
  (truthy (Test_scheduler self) = true -> scheduler_class OtherScheduler s) ->
  Test_run self s
  = let loop := for_each (Test_dataloader self) (Test_batch self)
                  (set_grad_enabled false (set_training false s)) in
    mkOut (Ok tt) (set_grad_enabled (grad_enabled s) (final loop))
          (EModelEval :: log loop ++ []).
Proof.
  intros Hcls. rewrite Test_run_unfold. cbv zeta.
  destruct (Test_loop_frame self (set_grad_enabled false (set_training false s)))
    as (Hv & (_ & _ & _ & _ & _ & Hs) & _).
  rewrite (bind_Ok _ _ _ tt Hv). cbn [value final log].
  destruct (truthy (Test_scheduler self)).
  - rewrite Test_tail_other; [reflexivity|].
    unfold scheduler_class. rewrite Hs. exact (Hcls eq_refl).
  - reflexivity.
Qed.

(** C5, as the code has it. [Test.run] leaves the parameters, the
    gradient buffers, the optimizer and the scheduler as they were: its
    forward passes run with gradients disabled and it calls neither
    [zero_grad] nor [backward] nor [optimizer.step]; besides the run
    manager's statistics it writes one more piece of state, the mode of
    the model, which it sets to evaluation. *)
Theorem Test_run_frame (self : Test) (s : state) :
  let o := Test_run self s in
  params (final o) = params s
  /\ Forall evaluation_call (log o)
  /\ training (final o) = false
  /\ only_stats_mutated (set_training false s) (final o).
Proof.
  cbv zeta. rewrite Test_run_unfold. cbv zeta. cbn [final log].
  set (s1 := set_grad_enabled false (set_training false s)).
  assert (Hbody :
    hoare (only_stats_mutated s1)
      (for_each (Test_dataloader self) (Test_batch self) ;;
       plateau <- (if truthy (Test_scheduler self)
                   then scheduler_is_plateau else ret false) ;;
       if plateau then
         test_loss <- runmanager_get_test_loss ;;
         pbar_write "In scheduler step with loss of " (PyFloat test_loss) ;;
         test_loss <- runmanager_get_test_loss ;;
         scheduler_step_metrics test_loss
       else ret tt)
      (only_stats_mutated s1) evaluation_call (fun _ _ => True)).
  { apply hoare_seq.
    { intros s' Hs'.
      destruct (hoare_for_each _ _ _ (Test_dataloader self)
                  (fun b => Test_batch_frame self b s1) s' Hs') as (Hi & Hl & _).
      split; [exact Hi|]. split; [|auto].
      eapply Forall_impl; [exact Hl|]. intros e He. apply He. reflexivity. }
    intros _. eapply hoare_bind with (Q1 := fun _ _ => True).
    { destruct (truthy (Test_scheduler self)).
      - apply hoare_read. auto.
      - apply hoare_ret_inv. }
    intros [|].
    - eapply hoare_weaken with (Pre := only_stats_mutated s1) (Q := fun _ _ => True);
        [|intros s' [Hs' _]; exact Hs'|auto].
      apply hoare_seq.
      { apply hoare_call_inv. intros s' Hs'. split; [exact Hs'|exact I]. }
      intros test_loss.
      eapply hoare_bind; [apply hoare_pbar_write_float; exact I|].
      intros _ s' [_ []].
    - eapply hoare_weaken; [apply hoare_ret_inv| |auto]. intros s' [Hs' _]. exact Hs'. }
  destruct (Hbody s1) as ((Ht & Hp & Hg & _ & Ho & Hsc) & Hl & _).
  { repeat split. }
  cbn [set_grad_enabled params training grad optim sched grad_enabled].
  split; [exact Hp|]. split; [constructor; [exact I|exact Hl]|].
  split; [exact Ht|]. repeat split; assumption.
Qed.

(** C8. When the scheduler of [Test.run] is a [ReduceLROnPlateau], the
    pass raises in [pbar.write], which received the test loss as its
    [file] argument; that call is the last one made, so no
    [scheduler.step] is made and the scheduler is as it was. *)
Theorem Test_run_plateau_raises (self : Test) (s : state) :
  truthy (Test_scheduler self) = true ->
  scheduler_class ReduceLROnPlateau s ->
  let o := Test_run self s in
  value o = Raise (AttributeError "'float' object has no attribute 'write'")
  /\ (exists l,
        log o = l ++ [EGetTestLoss;
                      EWrite "In scheduler step with loss of "
                             (PyFloat (rm_get_test_loss (stats (final o))))])
  /\ Forall (fun e => name_of e <> scheduler_step_) (log o)
  /\ sched (final o) = sched s.
Proof.
  intros Hsched Hcls. cbv zeta.
  destruct (Test_run_steps ReduceLROnPlateau
              (fun e => name_of e <> scheduler_step_) (fun e H => H) self s Hcls)
    as (_ & Hl & _).
  split; [|split; [|split; [exact Hl|]]].
  - rewrite Test_run_plateau by assumption. reflexivity.
  - rewrite Test_run_plateau by assumption. cbv zeta. cbn [log final stats set_grad_enabled].
    eexists (EModelEval :: _). reflexivity.
  - rewrite Test_run_plateau by assumption. cbv zeta. cbn [final sched set_grad_enabled].
    destruct (Test_loop_frame self (set_grad_enabled false (set_training false s)))
      as (_ & (_ & _ & _ & _ & _ & Hs) & _).
    exact Hs.
Qed.

(** ** The calls received by the run manager *)

Lemma runmanager_calls_app (l1 l2 : list event) :
  runmanager_calls (l1 ++ l2) = runmanager_calls l1 ++ runmanager_calls l2.
Proof. unfold runmanager_calls. rewrite map_app. apply filter_app. Qed.

Lemma for_each_runmanager_calls {A} (Inv : state -> Prop) (body : A -> M unit)
    (K : list call_name) (xs : list A) :
  (forall x s, Inv s -> value (body x s) = Ok tt /\ Inv (final (body x s))) ->
  (forall x s, runmanager_calls (log (body x s)) = K) ->
  forall s, Inv s ->
    runmanager_calls (log (for_each xs body s)) = concat (replicate (length xs) K).
Proof.
  intros Hval Hlog. induction xs as [|x xs IH]; intros s Hs; [reflexivity|].
  destruct (Hval x s Hs) as [Hv Hf].
  cbn [for_each]. rewrite (bind_Ok _ _ _ tt Hv). cbn [log].
  rewrite runmanager_calls_app, Hlog, IH by exact Hf. reflexivity.
Qed.

Lemma Train_batch_runmanager_calls (self : Train) (b : Data * Target) (s : state) :
  runmanager_calls (log (Train_batch self b s))
  = [begin_batch_; track_train_loss_; track_train_num_correct_; end_batch_].
Proof.
  unfold runmanager_calls. rewrite Train_batch_names.
  destruct (truthy (Train_scheduler self)); reflexivity.
Qed.

Lemma Train_run_runmanager_calls (self : Train) (s : state) :
  can_step self s ->
  runmanager_calls (log (Train_run self s))
  = concat (replicate (length (Train_dataloader self))
              [begin_batch_; track_train_loss_; track_train_num_correct_;
               end_batch_]).
Proof.
  intros Hs. rewrite Train_run_unfold. cbn [log].
  change (EModelTrain :: ?l) with ([EModelTrain] ++ l).
  rewrite runmanager_calls_app.
  rewrite (for_each_runmanager_calls _ _ _ _ (Train_batch_ok self)
             (Train_batch_runmanager_calls self) (set_training true s) Hs).
  reflexivity.
Qed.

Lemma Test_loop_runmanager_calls (self : Test) (s : state) :
  runmanager_calls (log (for_each (Test_dataloader self) (Test_batch self) s))
  = concat (replicate (length (Test_dataloader self))
              [track_test_loss_; track_test_num_correct_]).
Proof.
  apply (for_each_runmanager_calls _ _ _ _ (Test_batch_ok self)); [|exact I].
  intros b s'. unfold runmanager_calls. rewrite Test_batch_names. reflexivity.
Qed.

Lemma Train_run_scheduler_class (self : Train) (c : sched_class) (s : state) :
  scheduler_class c s -> scheduler_class c (final (Train_run self s)).
Proof.
  intros Hs.
  apply (Train_run_steps c (fun _ => True) (fun _ _ => I) self (fun _ => I) s Hs).
Qed.

(** ** One epoch and the whole run *)

Lemma bind_call {A B} (e : state -> event) (f : state -> A * state)
    (k : A -> M B) (s : state) :
  bind (call e f) k s
  = let o := k (fst (f s)) (snd (f s)) in
    mkOut (value o) (final o) (e s :: log o).
Proof. reflexivity. Qed.

Lemma epoch_range_cons (epochs : Z) :
  (1 <= epochs)%Z ->
  exists rest, epoch_range epochs = 1%Z :: rest.
Proof.
  intros H. unfold epoch_range.
  destruct (Z.to_nat epochs) as [|n] eqn:E; [lia|].
  cbn [seq map]. eauto.
Qed.

Lemma length_epoch_range (epochs : Z) :
  length (epoch_range epochs) = Z.to_nat epochs.
Proof. unfold epoch_range. rewrite length_map, length_seq. reflexivity. Qed.

(** With a [ReduceLROnPlateau] scheduler that the training runner does
    not hold, an epoch ends in the evaluation pass. *)
Lemma ModelTrainer_epoch_plateau (self : ModelTrainer) (epoch : Z) (s : state) :
  truthy (Test_scheduler (test self)) = true ->
  truthy (Train_scheduler (train self)) = false ->
  scheduler_class ReduceLROnPlateau s ->
  let o := ModelTrainer_epoch self epoch s in
  value o = Raise (AttributeError "'float' object has no attribute 'write'")
  /\ runmanager_calls (log o)
     = [begin_epoch_]
       ++ concat (replicate (length (Train_dataloader (train self)))
                    [begin_batch_; track_train_loss_;
                     track_train_num_correct_; end_batch_])
       ++ concat (replicate (length (Test_dataloader (test self)))
                    [track_test_loss_; track_test_num_correct_])
       ++ [get_test_loss_].
Proof.
  intros Hsched Hnone Hcls. cbv zeta. unfold ModelTrainer_epoch, runmanager.
  rewrite bind_call. cbv zeta. cbn [fst snd].
  set (s1 := set_stats _ s).
  assert (Hcls1 : scheduler_class ReduceLROnPlateau s1) by exact Hcls.
  assert (Hgood : can_step (train self) s1).
  { intros H. rewrite Hnone in H. discriminate H. }
  rewrite (bind_Ok _ _ _ tt (Train_run_value (train self) s1 Hgood)).
  cbn [value final log].
  pose proof (Train_run_scheduler_class (train self) _ s1 Hcls1) as Hcls2.
  rewrite bind_Raise
    with (e := AttributeError "'float' object has no attribute 'write'")
    by (rewrite Test_run_plateau by assumption; reflexivity).
  cbn [value final log]. split; [reflexivity|].
  rewrite Test_run_plateau by assumption. cbv zeta. cbn [log].
  change (EBeginEpoch :: ?l) with ([EBeginEpoch] ++ l).
  change (EModelEval :: ?l) with ([EModelEval] ++ l).
  rewrite !runmanager_calls_app, Train_run_runmanager_calls,
    Test_loop_runmanager_calls by exact Hgood.
  reflexivity.
Qed.

(** With one that the training runner holds, an epoch ends in the first
    training batch. *)
Lemma ModelTrainer_epoch_plateau_batch (self : ModelTrainer) (epoch : Z)
    (s : state) :
  truthy (Train_scheduler (train self)) = true ->
  Train_dataloader (train self) <> [] ->
  scheduler_class ReduceLROnPlateau s ->
  let o := ModelTrainer_epoch self epoch s in
  value o = Raise (TypeError
              "step() missing 1 required positional argument: 'metrics'")
  /\ runmanager_calls (log o)
     = [begin_epoch_; begin_batch_; track_train_loss_;
        track_train_num_correct_; end_batch_].
Proof.
  intros Hsched Hloader Hcls. cbv zeta. unfold ModelTrainer_epoch, runmanager.
  rewrite bind_call. cbv zeta. cbn [fst snd].
  set (s1 := set_stats _ s).
  assert (Hcls1 : scheduler_class ReduceLROnPlateau s1) by exact Hcls.
  destruct (Train_dataloader (train self)) as [|b rest] eqn:Eloader;
    [contradiction|].
  destruct (Train_run_plateau (train self) b rest s1 Hsched Hcls1 Eloader)
    as [_ Erun].
  rewrite bind_Raise
    with (e := TypeError "step() missing 1 required positional argument: 'metrics'")
    by (rewrite Erun; reflexivity).
  cbn [value final log]. split; [reflexivity|].
  rewrite Erun. cbn [log].
  change (EBeginEpoch :: EModelTrain :: ?l) with ([EBeginEpoch; EModelTrain] ++ l).
  rewrite runmanager_calls_app, Train_batch_runmanager_calls. reflexivity.
Qed.

(** C4 at a [ReduceLROnPlateau] scheduler. [ModelTrainer.run] with at
    least one epoch raises in the first epoch.  When the training runner
    does not hold the scheduler ([batch_scheduler] false), it raises in
    the evaluation pass: the run manager receives begin_run, begin_epoch,
    the calls of the training pass and of the test batches and
    get_test_loss.  When the training runner holds it, it raises in the
    scheduler.step of the first training batch: the run manager receives
    begin_run, begin_epoch and the four calls of that batch.  In both
    cases it receives neither end_epoch nor savebest nor save. *)
Theorem ModelTrainer_run_plateau_aborts (self : ModelTrainer) (tbrun : string)
    (epochs : Z) (s : state) :
  truthy (Test_scheduler (test self)) = true ->
  scheduler_class ReduceLROnPlateau s ->
  (1 <= epochs)%Z ->
  let o := ModelTrainer_run self tbrun epochs s in
  (truthy (Train_scheduler (train self)) = false ->
   value o = Raise (AttributeError "'float' object has no attribute 'write'")
   /\ runmanager_calls (log o)
      = [begin_run_; begin_epoch_]
        ++ concat (replicate (length (Train_dataloader (train self)))
                     [begin_batch_; track_train_loss_;
                      track_train_num_correct_; end_batch_])
        ++ concat (replicate (length (Test_dataloader (test self)))
                     [track_test_loss_; track_test_num_correct_])
        ++ [get_test_loss_])
  /\ (truthy (Train_scheduler (train self)) = true ->
      Train_dataloader (train self) <> [] ->
      value o = Raise (TypeError
                  "step() missing 1 required positional argument: 'metrics'")
      /\ runmanager_calls (log o)
         = [begin_run_; begin_epoch_; begin_batch_; track_train_loss_;
            track_train_num_correct_; end_batch_]).
Proof.
  intros Hsched Hcls Hepochs. cbv zeta.
  destruct (epoch_range_cons epochs Hepochs) as [rest Erange].
  unfold ModelTrainer_run, runmanager. rewrite bind_call. cbv zeta. cbn [fst snd].
  set (s1 := set_stats _ s).
  assert (Hcls1 : scheduler_class ReduceLROnPlateau s1) by exact Hcls.
  rewrite Erange. cbn [for_each].
  split.
  - intros Hnone.
    destruct (ModelTrainer_epoch_plateau self 1 s1 Hsched Hnone Hcls1) as [Hv Hl].
    rewrite (bind_Raise (bind _ _) _ _ _
               ltac:(rewrite (bind_Raise _ _ _ _ Hv); reflexivity)).
    rewrite (bind_Raise _ _ _ _ Hv). cbn [value final log].
    split; [reflexivity|].
    change (EBeginRun tbrun :: ?l) with ([EBeginRun tbrun] ++ l).
    rewrite runmanager_calls_app, Hl. reflexivity.
  - intros Hheld Hloader.
    destruct (ModelTrainer_epoch_plateau_batch self 1 s1 Hheld Hloader Hcls1)
      as [Hv Hl].
    rewrite (bind_Raise (bind _ _) _ _ _
               ltac:(rewrite (bind_Raise _ _ _ _ Hv); reflexivity)).
    rewrite (bind_Raise _ _ _ _ Hv). cbn [value final log].
    split; [reflexivity|].
    change (EBeginRun tbrun :: ?l) with ([EBeginRun tbrun] ++ l).
    rewrite runmanager_calls_app, Hl. reflexivity.
Qed.

(** Without a [ReduceLROnPlateau] scheduler the run manager receives what
    C4 lists. *)
Lemma epoch_end_calls (self : ModelTrainer) (s : state) :
  let o := (lr <- optimizer_lr ;;
            msg <- runmanager_end_epoch lr ;;
            pbar_write msg PyNone ;;
            runmanager (ESaveBest (model_name self)) (rm_savebest (model_name self)) ;;
            epoch_step <- (if truthy (scheduler self) then
                             if negb (batch_scheduler self) then
                               plateau <- scheduler_is_plateau ;; ret (negb plateau)
                             else ret false
                           else ret false) ;;
            (if epoch_step : bool then scheduler_step ESchedStepEpoch else ret tt) ;;
            pbar_write (format_lr lr) PyNone) s in
  value o = Ok tt
  /\ runmanager_calls (log o) = [end_epoch_; savebest_]
  /\ sched_cls (sched (final o)) = sched_cls (sched s).
Proof.
  cbv zeta. destruct s as [tr ps g ge o [cls st] r].
  destruct (truthy (scheduler self)), (batch_scheduler self), cls;
    repeat split.
Qed.

Lemma ModelTrainer_epoch_calls (self : ModelTrainer) (epoch : Z)
    (c : sched_class) (s : state) :
  (truthy (Test_scheduler (test self)) = true -> c = OtherScheduler) ->
  (truthy (Train_scheduler (train self)) = true -> c = OtherScheduler) ->
  scheduler_class c s ->
  let o := ModelTrainer_epoch self epoch s in
  value o = Ok tt
  /\ runmanager_calls (log o)
     = epoch_calls (length (Train_dataloader (train self)))
                   (length (Test_dataloader (test self)))
  /\ scheduler_class c (final o).
Proof.
  intros Hgood Hheld Hcls. cbv zeta.
  remember (ModelTrainer_epoch self epoch s) as o eqn:Eo.
  unfold ModelTrainer_epoch in Eo. unfold runmanager at 1 in Eo.
  rewrite bind_call in Eo. cbv zeta in Eo. cbn [fst snd] in Eo.
  set (s1 := set_stats _ s) in Eo.
  assert (Hcls1 : scheduler_class c s1) by exact Hcls.
  assert (Hstep : can_step (train self) s1)
    by (intros H; exact (eq_trans Hcls1 (Hheld H))).
  rewrite (bind_Ok _ _ _ tt (Train_run_value (train self) s1 Hstep)) in Eo.
  cbn [value final log] in Eo.
  pose proof (Train_run_scheduler_class (train self) _ s1 Hcls1) as Hcls2.
  set (s2 := final (Train_run (train self) s1)) in *.
  assert (Hplain := Test_run_plain (test self) s2
                      (fun H => eq_trans Hcls2 (Hgood H))).
  cbv zeta in Hplain.
  destruct (Test_loop_frame (test self)
              (set_grad_enabled false (set_training false s2)))
    as (_ & (_ & _ & _ & _ & _ & Hs) & _).
  rewrite (bind_Ok _ _ _ tt) in Eo by (rewrite Hplain; reflexivity).
  rewrite Hplain in Eo. cbn [value final log] in Eo.
  set (s3 := set_grad_enabled _ _) in *.
  assert (Hcls3 : sched_cls (sched s3) = c).
  { unfold s3. cbn [set_grad_enabled sched]. rewrite Hs. exact Hcls2. }
  destruct (epoch_end_calls self s3) as (Hv & Hl & Hc). cbv zeta in Hv, Hl, Hc.
  subst o. cbn [value final log].
  split; [exact Hv|]. split.
  - change (EBeginEpoch :: ?l) with ([EBeginEpoch] ++ l).
    change (EModelEval :: ?l) with ([EModelEval] ++ l).
    rewrite !runmanager_calls_app, Train_run_runmanager_calls,
      Test_loop_runmanager_calls, Hl by exact Hstep.
    unfold epoch_calls. cbn [app]. rewrite !app_nil_r. reflexivity.
  - unfold scheduler_class. rewrite Hc. exact Hcls3.
Qed.

Lemma ModelTrainer_run_calls (self : ModelTrainer) (tbrun : string) (epochs : Z)
    (s : state) :
  (truthy (Test_scheduler (test self)) = true ->
   scheduler_class OtherScheduler s) ->
  (truthy (Train_scheduler (train self)) = true ->
   scheduler_class OtherScheduler s) ->
  let o := ModelTrainer_run self tbrun epochs s in
  value o = Ok tt
  /\ runmanager_calls (log o)
     = [begin_run_]
       ++ concat (replicate (Z.to_nat epochs)
                    (epoch_calls (length (Train_dataloader (train self)))
                                 (length (Test_dataloader (test self)))))
       ++ [save_].
Proof.
  intros Hgood Hheld. cbv zeta.
  set (c := sched_cls (sched s)).
  assert (Hc : truthy (Test_scheduler (test self)) = true -> c = OtherScheduler)
    by (intros H; exact (Hgood H)).
  assert (Hc' : truthy (Train_scheduler (train self)) = true -> c = OtherScheduler)
    by (intros H; exact (Hheld H)).
  remember (ModelTrainer_run self tbrun epochs s) as o eqn:Eo.
  unfold ModelTrainer_run in Eo. unfold runmanager at 1 in Eo.
  rewrite bind_call in Eo. cbv zeta in Eo. cbn [fst snd] in Eo.
  set (s1 := set_stats _ s) in Eo.
  assert (Hcls1 : scheduler_class c s1) by reflexivity.
  assert (Hloop : forall xs s', scheduler_class c s' ->
            value (for_each xs (ModelTrainer_epoch self) s') = Ok tt
            /\ runmanager_calls (log (for_each xs (ModelTrainer_epoch self) s'))
               = concat (replicate (length xs)
                           (epoch_calls (length (Train_dataloader (train self)))
                                        (length (Test_dataloader (test self)))))).
  { induction xs as [|x xs IH]; intros s' Hs'; [split; reflexivity|].
    destruct (ModelTrainer_epoch_calls self x c s' Hc Hc' Hs') as (Hv & Hl & Hf).
    cbn [for_each]. rewrite (bind_Ok _ _ _ tt Hv). cbn [value final log].
    destruct (IH _ Hf) as [Hv' Hl']. split; [exact Hv'|].
    rewrite runmanager_calls_app, Hl, Hl'. reflexivity. }
  destruct (Hloop (epoch_range epochs) s1 Hcls1) as [Hv Hl].
  rewrite (bind_Ok _ _ _ tt Hv) in Eo. subst o. cbn [value final log].
  split; [reflexivity|].
  change (EBeginRun tbrun :: ?l) with ([EBeginRun tbrun] ++ l).
  rewrite !runmanager_calls_app, Hl, length_epoch_range. reflexivity.
Qed.

(** C9. With a scheduler, a run steps it on at most one of the two
    cadences: the training runner holds the scheduler, and steps it after
    every batch, only when [batch_scheduler] is true; the step at the end
    of an epoch is made only when [batch_scheduler] is false and the
    scheduler is not a [ReduceLROnPlateau]. *)
Theorem scheduler_single_cadence (name : string)
    (train_loader test_loader : list (Data * Target))
    (lossfn : Output -> Target -> Q) (r : sched_ref) (batch_sched : bool)
    (L1lambda : Q) (tbrun : string) (epochs : Z) (s : state) :
  let self := ModelTrainer_init name train_loader test_loader lossfn (Some r)
                batch_sched L1lambda in
  let l := log (ModelTrainer_run self tbrun epochs s) in
  Train_scheduler (train self) = (if batch_sched then Some r else None)
  /\ (ESchedStepBatch ∈ l -> batch_sched = true)
  /\ (ESchedStepEpoch ∈ l ->
      batch_sched = false /\ sched_cls (sched s) = OtherScheduler)
  /\ ~ (ESchedStepBatch ∈ l /\ ESchedStepEpoch ∈ l).
Proof.
  intros self l.
  assert (Hrun : forall P : event -> Prop,
            (forall e, name_of e <> scheduler_step_ -> P e) ->
            (batch_sched = true -> P ESchedStepBatch) ->
            (batch_sched = false -> sched_cls (sched s) = OtherScheduler ->
             P ESchedStepEpoch) ->
            Forall P l).
  { intros P Hother Hbatch Hepoch.
    apply (ModelTrainer_run_steps (sched_cls (sched s)) P Hother self tbrun epochs).
    - unfold self. cbn. destruct batch_sched; [auto|discriminate].
    - unfold self. cbn. auto.
    - reflexivity. }
  assert (Hb : ESchedStepBatch ∈ l -> batch_sched = true).
  { intros Hin. destruct batch_sched; [reflexivity|].
    assert (Hall : Forall (fun e => e <> ESchedStepBatch) l).
    { apply Hrun.
      - intros e He ->. apply He. reflexivity.
      - discriminate.
      - discriminate. }
    rewrite Forall_forall in Hall. exfalso. exact (Hall _ Hin eq_refl). }
  assert (He : ESchedStepEpoch ∈ l ->
               batch_sched = false /\ sched_cls (sched s) = OtherScheduler).
  { intros Hin.
    destruct batch_sched eqn:Eb, (sched_cls (sched s)) eqn:Ec; try (split; reflexivity).
    all: exfalso;
      assert (Hall : Forall (fun e => e <> ESchedStepEpoch) l)
        by (apply Hrun; [intros e He ->; apply He; reflexivity
                        |discriminate|discriminate]);
      rewrite Forall_forall in Hall; exact (Hall _ Hin eq_refl). }
  split; [unfold self; cbn; reflexivity|].
  split; [exact Hb|]. split; [exact He|].
  intros [H1 H2]. apply Hb in H1. apply He in H2 as [H2 _]. congruence.
Qed.

End Generic.

Import Toy.

Lemma Train_run_backpropagated_witness :
  (0 < 1)%Q
  /\ Forall2 (fun sb loss =>
                (item loss == toy_lossfn (toy_weight (params (fst sb)) * fst (snd sb))
                                (snd (snd sb))
                              + 1 * l1_norm (params (fst sb)))%Q
                /\ grad_fn loss = GAddL1 (GLossfn (fst (snd sb)) (snd (snd sb))) 1%Q)
             (run_batches (toy_train 1) (toy_state OtherScheduler))
             (backpropagated (log (Train_run (toy_train 1) (toy_state OtherScheduler)))).
Proof.
  split; [reflexivity|].
  apply (proj1 (Train_run_backpropagated (toy_train 1) (toy_state OtherScheduler))).
  reflexivity.
Defined.

Lemma Train_run_call_order_witness :
  value (Train_run (train (toy_trainer (Some TheScheduler) true))
           (toy_state OtherScheduler)) = Ok tt
  /\ value (Train_run (train (toy_trainer (Some TheScheduler) true))
              (toy_state ReduceLROnPlateau))
     = Raise (TypeError "step() missing 1 required positional argument: 'metrics'").
Proof.
  split.
  - apply (proj1 (proj2 (Train_run_call_order
                           (train (toy_trainer (Some TheScheduler) true))
                           (toy_state OtherScheduler)))).
    intros _. reflexivity.
  - apply (proj1 (proj2 (proj2 (Train_run_call_order
                                  (train (toy_trainer (Some TheScheduler) true))
                                  (toy_state ReduceLROnPlateau)))
                    eq_refl eq_refl (1%Q, 0%Q) [(2%Q, 0%Q)] eq_refl)).
Defined.

(** C2 fails: in the second of two batches the buffer seen by
    [optimizer.step] is the gradient of that batch, not the sum with the
    gradient the first batch left. *)
Lemma gradient_accumulation_counterexample :
  ~ accumulates_gradients (toy_train 0) (toy_state OtherScheduler).
Proof.
  unfold accumulates_gradients, run_batches. intros H.
  cbn [batch_states toy_train Train_dataloader two_batches] in H.
  apply Forall_cons in H as [_ H]. apply Forall_cons in H as [H _].
  vm_compute in H. discriminate H.
Qed.

(** C5 fails as stated: an evaluation pass over a model in training mode
    leaves it in evaluation mode, a change of state outside the run
    manager. *)
Lemma Test_run_mode_counterexample :
  ~ only_stats_mutated (toy_state OtherScheduler)
      (final (Test_run (toy_test None) (toy_state OtherScheduler))).
Proof.
  intros (Htraining & _). vm_compute in Htraining. discriminate Htraining.
Qed.

Lemma Test_run_plateau_raises_witness :
  value (Test_run (toy_test (Some TheScheduler)) (toy_state ReduceLROnPlateau))
  = Raise (AttributeError "'float' object has no attribute 'write'").
Proof.
  apply (Test_run_plateau_raises (toy_test (Some TheScheduler))
           (toy_state ReduceLROnPlateau)); reflexivity.
Defined.

Lemma ModelTrainer_run_plateau_aborts_witness :
  value (ModelTrainer_run (toy_trainer (Some TheScheduler) false) "run" 1
           (toy_state ReduceLROnPlateau))
  = Raise (AttributeError "'float' object has no attribute 'write'")
  /\ runmanager_calls
       (log (ModelTrainer_run (toy_trainer (Some TheScheduler) true) "run" 1
               (toy_state ReduceLROnPlateau)))
     = [begin_run_; begin_epoch_; begin_batch_; track_train_loss_;
        track_train_num_correct_; end_batch_].
Proof.
  split.
  - apply (proj1 (ModelTrainer_run_plateau_aborts
                    (toy_trainer (Some TheScheduler) false) "run" 1
                    (toy_state ReduceLROnPlateau) eq_refl eq_refl
                    ltac:(lia))).
    reflexivity.
  - apply (proj2 (ModelTrainer_run_plateau_aborts
                    (toy_trainer (Some TheScheduler) true) "run" 1
                    (toy_state ReduceLROnPlateau) eq_refl eq_refl
                    ltac:(lia))).
    + reflexivity.
    + intros H. discriminate H.
Defined.

End TrainerFacts.

(** * Sizes through the blocks and the network *)

Module S11Shapes.
Import S11 S11Whole.

Lemma conv_extent_same (n : nat) :
  conv_extent n 3 1 1 = if 1 <=? n then Some n else None.
Proof.
  unfold conv_extent. destruct (1 <=? n) eqn:E.
  - apply Nat.leb_le in E.
    destruct (n + 2 * 1 <? 3) eqn:E'; [apply Nat.ltb_lt in E'; lia|].
    cbn [orb Nat.eqb]. f_equal. rewrite Nat.div_1_r. lia.
  - apply Nat.leb_gt in E.
    destruct (n + 2 * 1 <? 3) eqn:E'; [reflexivity|].
    apply Nat.ltb_ge in E'. lia.
Qed.

Lemma pool_extent (n k : nat) :
  0 < k -> conv_extent n k 0 k = if k <=? n then Some (n / k) else None.
Proof.
  intros Hk. unfold conv_extent. rewrite Nat.mul_0_r, Nat.add_0_r.
  destruct (k <=? n) eqn:E.
  - apply Nat.leb_le in E.
    destruct (n <? k) eqn:E'; [apply Nat.ltb_lt in E'; lia|].
    destruct (k =? 0) eqn:E0; [apply Nat.eqb_eq in E0; lia|].
    cbn [orb]. f_equal.
    replace n with ((n - k) + 1 * k) at 2 by lia.
    rewrite Nat.div_add by lia. reflexivity.
  - apply Nat.leb_gt in E.
    destruct (n <? k) eqn:E'; [reflexivity|]. apply Nat.ltb_ge in E'. lia.
Qed.

(** The sizes a residual block accepts and what it returns on them. *)
Lemma ResBlock_shape_cases {W} (planes : nat) (mode : bool) (w1 g1 w2 g2 : W)
    (N ch H Wd : nat) :
  ResBlock_forward (T := option shape)
    (ResBlock_train mode (ResBlock_init planes w1 g1 w2 g2))
    (Some [N; ch; H; Wd])
  = if (ch =? planes) && (1 <=? H) && (1 <=? Wd)
       && negb (mode && (N * H * Wd =? 1))
    then Some [N; ch; H; Wd] else None.
Proof.
  unfold ResBlock_forward, ResBlock_train, ResBlock_init, BatchNorm2d_train.
  cbn [conv1 conv2 bn1 bn2 num_features bn_weight].
  cbn [conv2d batch_norm relu add shape_backend].
  unfold conv2d_shape at 2.
  cbn [in_channels out_channels kernel_size padding stride].
  rewrite !conv_extent_same.
  destruct (ch =? planes) eqn:Ec; [|reflexivity].
  apply Nat.eqb_eq in Ec. subst ch.
  destruct (1 <=? H) eqn:EH; [|reflexivity].
  destruct (1 <=? Wd) eqn:EW; [|reflexivity].
  cbn [andb]. unfold batch_norm_shape at 2. cbn [num_features bn_training].
  destruct (mode && (N * H * Wd =? 1)) eqn:E1; [reflexivity|].
  rewrite Nat.eqb_refl. unfold conv2d_shape.
  cbn [in_channels out_channels kernel_size padding stride].
  rewrite Nat.eqb_refl, !conv_extent_same, EH, EW.
  unfold batch_norm_shape. cbn [num_features bn_training].
  rewrite E1, Nat.eqb_refl.
  unfold add_shape. cbn [broadcast negb]. rewrite !Nat.eqb_refl. reflexivity.
Qed.

Lemma div_ge (H k m : nat) : 0 < k -> (m <=? H / k) = (m * k <=? H).
Proof.
  intros Hk. destruct (m * k <=? H) eqn:E.
  - apply Nat.leb_le in E. apply Nat.leb_le.
    apply Nat.div_le_lower_bound; lia.
  - apply Nat.leb_gt in E. apply Nat.leb_gt.
    apply Nat.Div0.div_lt_upper_bound. lia.
Qed.

Lemma ResBlock_shape_None {W} (planes : nat) (mode : bool) (w1 g1 w2 g2 : W) :
  ResBlock_forward (T := option shape)
    (ResBlock_train mode (ResBlock_init planes w1 g1 w2 g2)) None
  = None.
Proof. reflexivity. Qed.

(** The sizes a block accepts and what it returns on them. *)
Lemma S11Block_shape_cases {W} (in_planes planes : nat) (par mode : bool)
    (w : S11BlockWeights W) (N ch H Wd : nat) :
  S11Block_forward (T := option shape)
    (S11Block_train mode (S11Block_init in_planes planes par w))
    (Some [N; ch; H; Wd])
  = Ok (if (ch =? in_planes) && (2 <=? H) && (2 <=? Wd)
           && negb (mode && (N * (H / 2) * (Wd / 2) =? 1))
        then Some [N; planes; H / 2; Wd / 2] else None).
Proof.
  unfold S11Block_forward. cbv zeta.
  set (stem := relu _).
  assert (Hstem :
    stem = if (ch =? in_planes) && (2 <=? H) && (2 <=? Wd)
              && negb (mode && (N * (H / 2) * (Wd / 2) =? 1))
           then Some [N; planes; H / 2; Wd / 2] else None).
  { unfold stem.
    cbn [S11Block_train S11Block_init BatchNorm2d_train conv maxpool bn
         num_features bn_weight conv2d batch_norm max_pool2d relu
         shape_backend].
    unfold conv2d_shape.
    cbn [in_channels out_channels kernel_size padding stride].
    rewrite !conv_extent_same.
    destruct (ch =? in_planes); [|reflexivity]. cbn [andb].
    destruct (2 <=? H) eqn:EH.
    2:{ destruct (1 <=? H) eqn:E1, (1 <=? Wd) eqn:E2; try reflexivity.
        cbn [max_pool2d_shape pool_kernel]. rewrite !pool_extent by lia.
        rewrite EH. reflexivity. }
    destruct (2 <=? Wd) eqn:EW.
    2:{ destruct (1 <=? H) eqn:E1, (1 <=? Wd) eqn:E2; try reflexivity.
        cbn [max_pool2d_shape pool_kernel]. rewrite !pool_extent by lia.
        rewrite EW. destruct (2 <=? H); reflexivity. }
    apply Nat.leb_le in EH as EH', EW as EW'.
    replace (1 <=? H) with true by (symmetry; apply Nat.leb_le; lia).
    replace (1 <=? Wd) with true by (symmetry; apply Nat.leb_le; lia).
    cbn [max_pool2d_shape pool_kernel]. rewrite !pool_extent by lia.
    rewrite EH, EW.
    cbn [andb batch_norm_shape BatchNorm2d_train num_features bn_training].
    destruct (mode && (N * (H / 2) * (Wd / 2) =? 1)); [reflexivity|].
    rewrite Nat.eqb_refl. reflexivity. }
  clearbody stem. subst stem.
  destruct par; cbn [S11Block_train S11Block_init parallel res option_map];
    [|reflexivity].
  f_equal.
  destruct ((ch =? in_planes) && (2 <=? H) && (2 <=? Wd)
            && negb (mode && (N * (H / 2) * (Wd / 2) =? 1))) eqn:E.
  - apply andb_true_iff in E as [E Emany].
    apply andb_true_iff in E as [E EW]. apply andb_true_iff in E as [_ EH].
    apply Nat.leb_le in EH, EW.
    rewrite ResBlock_shape_cases, Nat.eqb_refl, !div_ge, Emany by lia.
    replace (1 * 2 <=? H) with true by (symmetry; apply Nat.leb_le; lia).
    replace (1 * 2 <=? Wd) with true by (symmetry; apply Nat.leb_le; lia).
    reflexivity.
  - apply ResBlock_shape_None.
Qed.

Lemma S11Block_shape_None {W} (in_planes planes : nat) (par mode : bool)
    (w : S11BlockWeights W) :
  S11Block_forward (T := option shape)
    (S11Block_train mode (S11Block_init in_planes planes par w)) None
  = Ok None.
Proof. destruct par; reflexivity. Qed.

(** X1. A residual block rejects an input whose channel count is not its
    [planes], and an input of height or width 0. *)
Theorem ResBlock_rejects {W} (planes : nat) (w1 g1 w2 g2 : W) (N ch H Wd : nat) :
  ch <> planes \/ H = 0 \/ Wd = 0 ->
  ResBlock_forward (T := option shape) (ResBlock_init planes w1 g1 w2 g2)
    (Some [N; ch; H; Wd]) = None.
Proof.
  intros Hbad.
  change (ResBlock_init planes w1 g1 w2 g2)
    with (ResBlock_train true (ResBlock_init planes w1 g1 w2 g2)).
  rewrite ResBlock_shape_cases.
  destruct (ch =? planes) eqn:Ec; [|reflexivity].
  apply Nat.eqb_eq in Ec.
  destruct (1 <=? H) eqn:EH; [|reflexivity].
  destruct (1 <=? Wd) eqn:EW; [|reflexivity].
  apply Nat.leb_le in EH, EW. lia.
Qed.

Lemma ResBlock_rejects_witness :
  ResBlock_forward (T := option shape) (ResBlock_init 128 tt tt tt tt)
    (Some [4; 64; 16; 16]) = None.
Proof. apply ResBlock_rejects. left. lia. Defined.

(** X2. A block maps N x in_planes x H x W to
    N x planes x floor(H/2) x floor(W/2), with or without its residual
    branch, when H and W are at least 2 and, while the block is in
    training mode, as it is from construction, the pooled tensor has more
    than one value per channel; it rejects any other channel count, any
    height or width below 2 and, in training mode, a pooled tensor of one
    value per channel. *)
Theorem S11Block_halves {W} (in_planes planes : nat) (par mode : bool)
    (w : S11BlockWeights W) (N ch H Wd : nat) :
  let self := S11Block_train mode (S11Block_init in_planes planes par w) in
  S11Block_train true (S11Block_init in_planes planes par w)
  = S11Block_init in_planes planes par w
  /\ (ch = in_planes -> 2 <= H -> 2 <= Wd ->
      (mode = true -> N * (H / 2) * (Wd / 2) <> 1) ->
      S11Block_forward (T := option shape) self (Some [N; ch; H; Wd])
      = Ok (Some [N; planes; H / 2; Wd / 2]))
  /\ (ch <> in_planes \/ H < 2 \/ Wd < 2
      \/ (mode = true /\ N * (H / 2) * (Wd / 2) = 1) ->
      S11Block_forward (T := option shape) self (Some [N; ch; H; Wd]) = Ok None).
Proof.
  cbv zeta. split; [destruct par; reflexivity|].
  rewrite S11Block_shape_cases. split.
  - intros -> HH HW Hmany. rewrite Nat.eqb_refl.
    apply Nat.leb_le in HH, HW. rewrite HH, HW.
    destruct mode; [|reflexivity].
    destruct (N * (H / 2) * (Wd / 2) =? 1) eqn:E; [|reflexivity].
    apply Nat.eqb_eq in E. destruct (Hmany eq_refl E).
  - intros Hbad. f_equal.
    destruct (ch =? in_planes) eqn:Ec; [|reflexivity].
    apply Nat.eqb_eq in Ec.
    destruct (2 <=? H) eqn:EH; [|reflexivity].
    destruct (2 <=? Wd) eqn:EW; [|reflexivity].
    apply Nat.leb_le in EH, EW.
    destruct Hbad as [Hbad|[Hbad|[Hbad|[-> Hone]]]]; try lia.
    apply Nat.eqb_eq in Hone. rewrite Hone. reflexivity.
Qed.

Lemma S11Block_halves_witness :
  S11Block_forward (T := option shape)
    (S11Block_init 64 128 true (mkS11BlockWeights tt tt tt tt tt tt))
    (Some [4; 64; 32; 32]) = Ok (Some [4; 128; 16; 16])
  /\ S11Block_forward (T := option shape)
       (S11Block_init 64 128 true (mkS11BlockWeights tt tt tt tt tt tt))
       (Some [1; 64; 2; 2]) = Ok None.
Proof.
  split.
  - apply (proj1 (proj2 (S11Block_halves 64 128 true true
                           (mkS11BlockWeights tt tt tt tt tt tt) 4 64 32 32)));
      [reflexivity|lia|lia|intros _; discriminate].
  - apply (proj2 (proj2 (S11Block_halves 64 128 true true
                           (mkS11BlockWeights tt tt tt tt tt tt) 1 64 2 2))).
    right. right. right. split; reflexivity.
Defined.

Lemma thirty_second (n : nat) : n / 2 / 2 / 2 / 4 = n / 32.
Proof. rewrite !Nat.Div0.div_div. reflexivity. Qed.

Lemma S11Block_shape_if {W} (in_planes planes : nat) (par mode : bool)
    (w : S11BlockWeights W) (c : bool) (N ch H Wd : nat) :
  S11Block_forward (T := option shape)
    (S11Block_train mode (S11Block_init in_planes planes par w))
    (if c then Some [N; ch; H; Wd] else None)
  = Ok (if c && ((ch =? in_planes) && (2 <=? H) && (2 <=? Wd)
                 && negb (mode && (N * (H / 2) * (Wd / 2) =? 1)))
        then Some [N; planes; H / 2; Wd / 2] else None).
Proof.
  destruct c; [apply S11Block_shape_cases|apply S11Block_shape_None].
Qed.

(** With at least 4 rows and columns there is more than one value per
    channel, or none at all. *)
Lemma many_values (N h w : nat) : 4 <= h -> 4 <= w -> (N * h * w =? 1) = false.
Proof.
  intros Hh Hw. apply Nat.eqb_neq. destruct N as [|N]; [cbn; lia|]. nia.
Qed.

(** The three blocks and the pooling of [S11Net.forward], on sizes. *)
Lemma S11Net_trunk {W} (w1 w2 w3 : S11BlockWeights W) (N H Wd : nat) :
  let net := S11Net_init w1 w2 w3 in
  exists x1 x2 x3,
    S11Block_forward (T := option shape) (layer1 net) (Some [N; 64; H; Wd]) = Ok x1
    /\ S11Block_forward (layer2 net) x1 = Ok x2
    /\ S11Block_forward (layer3 net) x2 = Ok x3
    /\ max_pool2d (W := W) (mkMaxPool2d 4) x3
       = if (32 <=? H) && (32 <=? Wd)
         then Some [N; 512; H / 32; Wd / 32] else None.
Proof.
  cbv zeta. cbn [S11Net_init layer1 layer2 layer3].
  change (S11Block_init 64 128 true w1)
    with (S11Block_train true (S11Block_init 64 128 true w1)).
  change (S11Block_init 128 256 false w2)
    with (S11Block_train true (S11Block_init 128 256 false w2)).
  change (S11Block_init 256 512 true w3)
    with (S11Block_train true (S11Block_init 256 512 true w3)).
  eexists _, _, _.
  split; [apply S11Block_shape_cases|].
  split; [apply S11Block_shape_if|].
  split; [apply S11Block_shape_if|].
  cbn [Nat.eqb andb]. rewrite !div_ge by lia.
  cbn [max_pool2d shape_backend].
  destruct (Nat.leb_spec 32 H) as [HH|HH], (Nat.leb_spec 32 Wd) as [HW|HW];
    cbn [andb].
  - replace (2 <=? H) with true by (symmetry; apply Nat.leb_le; lia).
    replace (2 <=? Wd) with true by (symmetry; apply Nat.leb_le; lia).
    replace (2 * 2 <=? H) with true by (symmetry; apply Nat.leb_le; lia).
    replace (2 * 2 <=? Wd) with true by (symmetry; apply Nat.leb_le; lia).
    replace (2 * 2 * 2 <=? H) with true by (symmetry; apply Nat.leb_le; lia).
    replace (2 * 2 * 2 <=? Wd) with true by (symmetry; apply Nat.leb_le; lia).
    rewrite !many_values
      by (repeat (apply Nat.div_le_lower_bound; [lia|]); lia).
    cbn [andb negb max_pool2d_shape pool_kernel].
    rewrite !pool_extent, !div_ge, !thirty_second by lia.
    replace (4 * 2 * 2 * 2 <=? H) with true by (symmetry; apply Nat.leb_le; lia).
    replace (4 * 2 * 2 * 2 <=? Wd) with true by (symmetry; apply Nat.leb_le; lia).
    reflexivity.
  - match goal with
    | |- max_pool2d_shape _ (if ?c then _ else _) = _ => destruct c
    end; [|reflexivity].
    cbn [max_pool2d_shape pool_kernel].
    rewrite !pool_extent, !div_ge by lia.
    replace (4 * 2 * 2 * 2 <=? Wd) with false by (symmetry; apply Nat.leb_gt; lia).
    destruct (4 * 2 * 2 * 2 <=? H); reflexivity.
  - match goal with
    | |- max_pool2d_shape _ (if ?c then _ else _) = _ => destruct c
    end; [|reflexivity].
    cbn [max_pool2d_shape pool_kernel].
    rewrite !pool_extent, !div_ge by lia.
    replace (4 * 2 * 2 * 2 <=? H) with false by (symmetry; apply Nat.leb_gt; lia).
    reflexivity.
  - match goal with
    | |- max_pool2d_shape _ (if ?c then _ else _) = _ => destruct c
    end; [|reflexivity].
    cbn [max_pool2d_shape pool_kernel].
    rewrite !pool_extent, !div_ge by lia.
    replace (4 * 2 * 2 * 2 <=? H) with false by (symmetry; apply Nat.leb_gt; lia).
    reflexivity.
Qed.

(** X3. On an N x 3 x H x W input with H, W at least 32, given a
    [prepLayer] that returns 64 channels at the size of its input and an
    [fc] that returns 10 channels at the size of its input,
    [S11Net.forward] returns N * floor(H/32) * floor(W/32) rows of 10
    log-probabilities: N rows exactly when the input is smaller than
    64 x 64. *)
Theorem S11Net_forward_rows {W} (prepLayer fc : option shape -> option shape)
    (w1 w2 w3 : S11BlockWeights W) (N H Wd : nat) :
  32 <= H -> 32 <= Wd ->
  prepLayer (Some [N; 3; H; Wd]) = Some [N; 64; H; Wd] ->
  fc (Some [N; 512; H / 32; Wd / 32]) = Some [N; 10; H / 32; Wd / 32] ->
  S11Net_forward prepLayer fc (S11Net_init w1 w2 w3) (Some [N; 3; H; Wd])
  = Ok (Some [N * (H / 32) * (Wd / 32); 10]).
Proof.
  intros HH HW Hprep Hfc. unfold S11Net_forward. cbv zeta. rewrite Hprep.
  destruct (S11Net_trunk w1 w2 w3 N H Wd) as (x1 & x2 & x3 & E1 & E2 & E3 & Ep).
  cbv zeta in E1, E2, E3. rewrite E1, E2, E3, Ep.
  apply Nat.leb_le in HH as ->. apply Nat.leb_le in HW as ->. cbn [andb].
  rewrite Hfc. cbn [view_rows log_softmax shape_head view_rows_shape fold_right].
  replace (N * (10 * (H / 32 * (Wd / 32 * 1))))
    with (N * (H / 32) * (Wd / 32) * 10) by lia.
  rewrite Nat.Div0.mod_mul, Nat.div_mul by lia. reflexivity.
Qed.

Lemma S11Net_forward_rows_witness :
  S11Net_forward (W := unit)
    (conv2d_shape (mkConv2d 3 64 3 1 1 false tt))
    (conv2d_shape (mkConv2d 512 10 1 0 1 false tt))
    (S11Net_init (mkS11BlockWeights tt tt tt tt tt tt)
       (mkS11BlockWeights tt tt tt tt tt tt)
       (mkS11BlockWeights tt tt tt tt tt tt))
    (Some [8; 3; 32; 32])
  = Ok (Some [8 * (32 / 32) * (32 / 32); 10]).
Proof.
  apply S11Net_forward_rows; [lia|lia|reflexivity|reflexivity].
Defined.

(** X4. [S11Net.forward] rejects an input of height or width below 32:
    after the three halvings the 4 x 4 pooling has too little to pool. *)
Theorem S11Net_forward_too_small {W} (prepLayer fc : option shape -> option shape)
    (w1 w2 w3 : S11BlockWeights W) (N H Wd : nat) :
  H < 32 \/ Wd < 32 ->
  prepLayer (Some [N; 3; H; Wd]) = Some [N; 64; H; Wd] ->
  fc None = None ->
  S11Net_forward prepLayer fc (S11Net_init w1 w2 w3) (Some [N; 3; H; Wd])
  = Ok None.
Proof.
  intros Hsmall Hprep Hfc. unfold S11Net_forward. cbv zeta. rewrite Hprep.
  destruct (S11Net_trunk w1 w2 w3 N H Wd) as (x1 & x2 & x3 & E1 & E2 & E3 & Ep).
  cbv zeta in E1, E2, E3. rewrite E1, E2, E3, Ep.
  destruct (Nat.leb_spec 32 H), (Nat.leb_spec 32 Wd); cbn [andb];
    try (rewrite Hfc; reflexivity).
  lia.
Qed.

Lemma S11Net_forward_too_small_witness :
  S11Net_forward (W := unit)
    (conv2d_shape (mkConv2d 3 64 3 1 1 false tt))
    (conv2d_shape (mkConv2d 512 10 1 0 1 false tt))
    (S11Net_init (mkS11BlockWeights tt tt tt tt tt tt)
       (mkS11BlockWeights tt tt tt tt tt tt)
       (mkS11BlockWeights tt tt tt tt tt tt))
    (Some [8; 3; 28; 28])
  = Ok None.
Proof.
  apply S11Net_forward_too_small; [left; lia|reflexivity|reflexivity].
Defined.

End S11Shapes.

(** * [make_one_hot] beyond single-channel labels in range *)

Module OneHotMore.
Import OneHot Props OneHotFacts.

(** The loop of [scatter_] raises as soon as one index is out of range. *)
Lemma scatter_loop_out_of_range {A} (index : tensor4 Z) (src : A) ps :
  forall self,
    (forall i j k l, (i, j, k, l) ∈ ps -> is_Some (get4 index i j k l)) ->
    (exists i j k l ix,
        (i, j, k, l) ∈ ps /\ get4 index i j k l = Some ix
        /\ ~ (0 <= ix < Z.of_nat (dim1 self))%Z) ->
    scatter_loop index src ps self = Raise (RuntimeError "index out of bounds").
Proof.
  induction ps as [|[[[i j] k] l] ps IH]; intros self Hdef Hbad.
  - destruct Hbad as (? & ? & ? & ? & ? & Hin & _). inversion Hin.
  - cbn [scatter_loop].
    destruct (Hdef i j k l ltac:(left)) as [ix0 E0]. rewrite E0.
    destruct ((0 <=? ix0)%Z && (ix0 <? Z.of_nat (dim1 self))%Z) eqn:Erange;
      [|reflexivity].
    apply IH.
    + intros i' j' k' l' Hin. apply Hdef. right. exact Hin.
    + destruct Hbad as (i' & j' & k' & l' & ix & Hin & Eix & Hout).
      apply elem_of_cons in Hin as [E|Hin].
      * injection E as -> -> -> ->.
        assert (ix = ix0) as -> by congruence.
        apply andb_true_iff in Erange as [H1 H2].
        apply Z.leb_le in H1. apply Z.ltb_lt in H2. lia.
      * exists i', j', k', l', ix. auto.
Qed.

(** X5. When some label lies outside [0, num_classes), [make_one_hot]
    raises the index error of [scatter_] and returns no tensor. *)
Theorem make_one_hot_out_of_range (labels : tensor4 Z) (num_classes : nat)
    (device : string) (n j h w : nat) (l : Z) :
  wf4 labels = true ->
  get4 labels n j h w = Some l ->
  ~ (0 <= l < Z.of_nat num_classes)%Z ->
  make_one_hot labels num_classes device
  = Raise (RuntimeError "index out of bounds").
Proof.
  intros Hwf El Hout. apply wf4_well_sized in Hwf.
  unfold make_one_hot.
  replace (if String.eqb device "cuda"
           then zeros (dim0 labels) num_classes (dim2 labels) (dim3 labels)
           else zeros (dim0 labels) num_classes (dim2 labels) (dim3 labels))
    with (zeros (dim0 labels) num_classes (dim2 labels) (dim3 labels))
    by (destruct (String.eqb device "cuda"); reflexivity).
  unfold scatter_1. cbn [zeros dim0 dim2 dim3].
  rewrite !Nat.leb_refl. cbn [andb].
  apply scatter_loop_out_of_range.
  - intros i' j' k' l' Hin.
    apply elem_of_positions in Hin as (Hi & Hj & Hk & Hl).
    apply get4_in_range; assumption.
  - exists n, j, h, w, l. split; [|split; [exact El|exact Hout]].
    apply elem_of_positions. eapply get4_Some_in_range; eassumption.
Qed.

Lemma make_one_hot_out_of_range_witness :
  make_one_hot sample_labels 2 "cpu" = Raise (RuntimeError "index out of bounds").
Proof.
  apply (make_one_hot_out_of_range sample_labels 2 "cpu" 0 0 0 1 2);
    [reflexivity|reflexivity|lia].
Defined.

(** X6. With labels of any number of channels, all in range, the result
    holds 1 at (n, c, h, w) when some channel of the labels holds c at
    (n, h, w), and 0 when none does: several label channels give a
    multi-hot encoding, no channel gives the zero tensor. *)
Theorem make_one_hot_channels (labels : tensor4 Z) (num_classes : nat)
    (device : string) :
  wf4 labels = true ->
  (forall n j h w l, get4 labels n j h w = Some l ->
     (0 <= l < Z.of_nat num_classes)%Z) ->
  exists target,
    make_one_hot labels num_classes device = Ok target
    /\ wf4 target = true
    /\ (dim0 target, dim1 target, dim2 target, dim3 target)
       = (dim0 labels, num_classes, dim2 labels, dim3 labels)
    /\ forall n c h w,
         n < dim0 labels -> c < num_classes -> h < dim2 labels -> w < dim3 labels ->
         ((exists j, get4 labels n j h w = Some (Z.of_nat c)) ->
          get4 target n c h w = Some 1%Q)
         /\ ((forall j, get4 labels n j h w <> Some (Z.of_nat c)) ->
             get4 target n c h w = Some 0%Q).
Proof.
  intros Hwf Hrange. apply wf4_well_sized in Hwf.
  unfold make_one_hot.
  replace (if String.eqb device "cuda"
           then zeros (dim0 labels) num_classes (dim2 labels) (dim3 labels)
           else zeros (dim0 labels) num_classes (dim2 labels) (dim3 labels))
    with (zeros (dim0 labels) num_classes (dim2 labels) (dim3 labels))
    by (destruct (String.eqb device "cuda"); reflexivity).
  set (one_hot := zeros (dim0 labels) num_classes (dim2 labels) (dim3 labels)).
  unfold scatter_1. cbn [one_hot zeros dim0 dim2 dim3].
  rewrite !Nat.leb_refl. cbn [andb]. fold one_hot.
  destruct (scatter_loop_spec labels 1%Q
              (positions (dim0 labels) (dim1 labels) (dim2 labels) (dim3 labels))
              one_hot) as (t & Et & Hwt & Hdims & _ & Hhit & Hmiss).
  { apply zeros_well_sized. }
  { intros i j k l Hin. apply elem_of_positions in Hin as (Hi & Hj & Hk & Hl).
    destruct (get4_in_range labels i j k l Hwf) as [ix Eix]; try assumption.
    exists ix. split; [exact Eix|].
    pose proof (Hrange _ _ _ _ _ Eix) as Hr. split; [exact Hr|].
    unfold one_hot. rewrite get4_zeros; eauto; lia. }
  exists t. split; [exact Et|]. split; [apply wf4_well_sized, Hwt|].
  split; [exact Hdims|].
  intros n c h w Hn Hc Hh Hw. split.
  - intros [j Ej].
    rewrite <- (Nat2Z.id c).
    apply (Hhit n j h w (Z.of_nat c)); [|exact Ej].
    apply elem_of_positions. eapply get4_Some_in_range; eassumption.
  - intros Hnone. rewrite Hmiss.
    + unfold one_hot. apply get4_zeros; assumption.
    + intros i j k l ix Hin Eix E.
      injection E as -> Ec -> ->.
      apply (Hnone j). rewrite Eix. f_equal.
      pose proof (Hrange _ _ _ _ _ Eix). lia.
Qed.

Lemma make_one_hot_channels_witness :
  exists target,
    make_one_hot (mkTensor4 1 2 1 1 [[[[0%Z]]; [[2%Z]]]]) 3 "cpu" = Ok target
    /\ get4 target 0 0 0 0 = Some 1%Q
    /\ get4 target 0 1 0 0 = Some 0%Q
    /\ get4 target 0 2 0 0 = Some 1%Q.
Proof.
  destruct (make_one_hot_channels (mkTensor4 1 2 1 1 [[[[0%Z]]; [[2%Z]]]]) 3 "cpu")
    as (t & Et & _ & _ & Hcell).
  - reflexivity.
  - intros n j h w l.
    destruct n as [|n]; [|destruct n; discriminate].
    destruct j as [|[|j]]; [| |destruct j; discriminate];
      (destruct h as [|h]; [|destruct h; discriminate]);
      (destruct w as [|w]; [|destruct w; discriminate]);
      cbn; intros [= <-]; lia.
  - exists t. split; [exact Et|].
    split; [|split].
    + apply (Hcell 0 0 0 0); cbn; try lia. exists 0. reflexivity.
    + apply (Hcell 0 1 0 0); cbn; try lia.
      intros j. destruct j as [|[|j]]; cbn; discriminate.
    + apply (Hcell 0 2 0 0); cbn; try lia. exists 1. reflexivity.
Defined.

End OneHotMore.

(** * Further properties of the trainer *)

Module TrainerRuns.
Import Trainer Props Measures TrainerFacts.

Section Runs.
Context `{F : Framework}.

(** ** What [Train.run] tracks and keeps *)

Lemma Train_batch_tracked (self : Train) (b : Data * Target) (s : state) :
  tracked_train_losses (log (Train_batch self b s))
  = map item (backpropagated (log (Train_batch self b s))).
Proof.
  destruct b as [data target]. unfold Train_batch.
  destruct s as [tr ps g ge o [cls st] r].
  destruct (Qlt_le_dec 0 (Train_L1lambda self));
    destruct (Train_scheduler self); destruct cls; reflexivity.
Qed.

(** X7. The losses [Train.run] reports to the run manager are the losses
    it backpropagates, batch by batch: with L1lambda > 0 the tracked
    training loss includes the L1 penalty. *)
Theorem Train_run_tracks_backpropagated (self : Train) (s0 : state) :
  tracked_train_losses (log (Train_run self s0))
  = map item (backpropagated (log (Train_run self s0))).
Proof.
  rewrite Train_run_unfold. cbn [log].
  change (tracked_train_losses (EModelTrain :: ?l)) with (tracked_train_losses l).
  change (backpropagated (EModelTrain :: ?l)) with (backpropagated l).
  generalize (set_training true s0).
  induction (Train_dataloader self) as [|b batches IH]; intros s; [reflexivity|].
  destruct (Train_loop_step self b batches s)
    as [(_ & _ & ->)|(e & _ & _ & ->)]; cbv zeta; cbn [log].
  - unfold tracked_train_losses, backpropagated.
    rewrite !omap_app, map_app.
    fold (tracked_train_losses (log (Train_batch self b s))).
    fold (backpropagated (log (Train_batch self b s))).
    rewrite Train_batch_tracked. f_equal. apply IH.
  - apply Train_batch_tracked.
Qed.

Lemma Train_batch_keeps (self : Train) (b : Data * Target) (s : state) :
  training (final (Train_batch self b s)) = training s
  /\ grad_enabled (final (Train_batch self b s)) = grad_enabled s
  /\ (Train_scheduler self = None ->
      sched (final (Train_batch self b s)) = sched s).
Proof.
  destruct b as [data target]. unfold Train_batch.
  destruct s as [tr ps g ge o [cls st] r].
  destruct (Qlt_le_dec 0 (Train_L1lambda self));
    destruct (Train_scheduler self); destruct cls; repeat split; discriminate.
Qed.

(** X8. [Train.run] leaves the model in training mode and the gradient
    mode as it was; a runner without a scheduler leaves the scheduler
    object untouched. *)
Theorem Train_run_keeps (self : Train) (s0 : state) :
  let o := Train_run self s0 in
  training (final o) = true
  /\ grad_enabled (final o) = grad_enabled s0
  /\ (Train_scheduler self = None -> sched (final o) = sched s0).
Proof.
  cbv zeta. rewrite Train_run_unfold. cbn [final].
  assert (Hloop : forall batches s,
            let o := for_each batches (Train_batch self) s in
            training (final o) = training s
            /\ grad_enabled (final o) = grad_enabled s
            /\ (Train_scheduler self = None -> sched (final o) = sched s)).
  { induction batches as [|b batches IH]; intros s; [repeat split|].
    cbv zeta.
    destruct (Train_batch_keeps self b s) as (Ht & Hg & Hs).
    destruct (Train_loop_step self b batches s)
      as [(_ & _ & ->)|(e & _ & _ & ->)]; cbv zeta; cbn [final].
    - destruct (IH (final (Train_batch self b s))) as (Ht' & Hg' & Hs').
      split; [congruence|]. split; [congruence|].
      intros Hnone. rewrite (Hs' Hnone). apply Hs, Hnone.
    - auto. }
  apply (Hloop (Train_dataloader self) (set_training true s0)).
Qed.

(** ** What [Test.run] evaluates *)

Lemma Test_loop_losses (self : Test) (s0 : state) (batches : list (Data * Target)) :
  forall s,
    training s = false -> params s = params s0 ->
    tracked_test_losses (log (for_each batches (Test_batch self) s))
    = map (fun b => Test_lossfn self (forward false (params s0) (fst b)) (snd b))
          batches.
Proof.
  induction batches as [|[data target] batches IH]; intros s Ht Hp; [reflexivity|].
  cbn [for_each]. rewrite (bind_Ok _ _ _ tt) by apply Test_batch_value.
  cbn [log map fst snd]. unfold tracked_test_losses. rewrite omap_app.
  fold (tracked_test_losses
          (log (for_each batches (Test_batch self)
                  (final (Test_batch self (data, target) s))))).
  rewrite IH by (cbn; assumption).
  cbn. rewrite Ht, Hp. reflexivity.
Qed.

(** X9. [Test.run] evaluates every batch of its loader, in order, with the
    model in evaluation mode and with the parameters it found on entry:
    the losses it reports are lossfn(model(data), target) under those.
    This holds whether or not the pass then raises in [pbar.write]. *)
Theorem Test_run_losses (self : Test) (s : state) :
  tracked_test_losses (log (Test_run self s))
  = map (fun b => Test_lossfn self (forward false (params s) (fst b)) (snd b))
        (Test_dataloader self).
Proof.
  assert (Hloop := Test_loop_losses self s (Test_dataloader self)
                     (set_grad_enabled false (set_training false s))
                     eq_refl eq_refl).
  destruct (truthy (Test_scheduler self)) eqn:Esched;
    [destruct (sched_cls (sched s)) eqn:Ecls|].
  - rewrite Test_run_plateau by assumption. cbv zeta. cbn [log].
    change (tracked_test_losses (EModelEval :: ?l)) with (tracked_test_losses l).
    unfold tracked_test_losses. rewrite omap_app. cbn [omap app].
    fold (tracked_test_losses
            (log (for_each (Test_dataloader self) (Test_batch self)
                    (set_grad_enabled false (set_training false s))))).
    rewrite Hloop. apply app_nil_r.
  - rewrite Test_run_plain by (intros _; exact Ecls). cbv zeta. cbn [log].
    change (tracked_test_losses (EModelEval :: ?l)) with (tracked_test_losses l).
    rewrite app_nil_r. exact Hloop.
  - rewrite Test_run_plain by (intros H; rewrite Esched in H; discriminate H).
    cbv zeta. cbn [log].
    change (tracked_test_losses (EModelEval :: ?l)) with (tracked_test_losses l).
    rewrite app_nil_r. exact Hloop.
Qed.

(** ** [ModelTrainer.run] at its edges *)

(** X10. With [epochs] at most 0 the range of epochs is empty:
    [ModelTrainer.run] calls begin_run and save on the run manager and
    nothing else, whatever the scheduler; model, optimizer and scheduler
    are as they were. *)
Theorem ModelTrainer_run_no_epochs (self : ModelTrainer) (tbrun : string)
    (epochs : Z) (s : state) :
  (epochs <= 0)%Z ->
  ModelTrainer_run self tbrun epochs s
  = mkOut (Ok tt)
          (set_stats (rm_save (model_name self) (rm_begin_run tbrun (stats s))) s)
          [EBeginRun tbrun; ESave (model_name self)].
Proof.
  intros Hle. unfold ModelTrainer_run, epoch_range.
  replace (Z.to_nat epochs) with 0 by lia. reflexivity.
Qed.

(** X11. With a [ReduceLROnPlateau] scheduler and [batch_scheduler] false,
    a run makes no [scheduler.step] call of any kind: not in the training
    pass, not at the end of an epoch, and not in the evaluation pass. *)
Theorem plateau_never_stepped (name : string)
    (train_loader test_loader : list (Data * Target))
    (lossfn : Output -> Target -> Q) (r : option sched_ref) (L1lambda : Q)
    (tbrun : string) (epochs : Z) (s : state) :
  scheduler_class ReduceLROnPlateau s ->
  Forall (fun e => name_of e <> scheduler_step_)
    (log (ModelTrainer_run
            (ModelTrainer_init name train_loader test_loader lossfn r false L1lambda)
            tbrun epochs s)).
Proof.
  intros Hcls.
  apply (ModelTrainer_run_steps ReduceLROnPlateau
           (fun e => name_of e <> scheduler_step_) (fun e H => H)
           (ModelTrainer_init name train_loader test_loader lossfn r false L1lambda)
           tbrun epochs).
  - cbn. intros H. discriminate H.
  - intros _ _ H. discriminate H.
  - exact Hcls.
Qed.

(** ** The calls of one epoch *)

Lemma epoch_end_log (self : ModelTrainer) (s : state) :
  let lr := opt_lr (optim s) in
  log ((lr <- optimizer_lr ;;
        msg <- runmanager_end_epoch lr ;;
        pbar_write msg PyNone ;;
        runmanager (ESaveBest (model_name self)) (rm_savebest (model_name self)) ;;
        epoch_step <- (if truthy (scheduler self) then
                         if negb (batch_scheduler self) then
                           plateau <- scheduler_is_plateau ;; ret (negb plateau)
                         else ret false
                       else ret false) ;;
        (if epoch_step : bool then scheduler_step ESchedStepEpoch else ret tt) ;;
        pbar_write (format_lr lr) PyNone) s)
  = [EEndEpoch lr; EWrite (fst (rm_end_epoch lr (stats s))) PyNone;
     ESaveBest (model_name self)]
    ++ (if truthy (scheduler self) && negb (batch_scheduler self)
           && match sched_cls (sched s) with
              | OtherScheduler => true
              | ReduceLROnPlateau => false
              end
        then [ESchedStepEpoch] else [])
    ++ [EWrite (format_lr lr) PyNone].
Proof.
  cbv zeta. destruct s as [tr ps g ge o [cls st] r].
  destruct (truthy (scheduler self)), (batch_scheduler self), cls; reflexivity.
Qed.

(** An epoch that does not end in [pbar.write]: its calls, from the state
    [s] in which it starts. *)
Lemma ModelTrainer_epoch_log (self : ModelTrainer) (epoch : Z)
    (c : sched_class) (s : state) :
  (truthy (Test_scheduler (test self)) = true -> c = OtherScheduler) ->
  (truthy (Train_scheduler (train self)) = true -> c = OtherScheduler) ->
  scheduler_class c s ->
  let training_pass :=
    Train_run (train self) (set_stats (rm_begin_epoch (stats s)) s) in
  let test_loop :=
    for_each (Test_dataloader (test self)) (Test_batch (test self))
      (set_grad_enabled false (set_training false (final training_pass))) in
  let lr := opt_lr (optim (final training_pass)) in
  exists msg,
    log (ModelTrainer_epoch self epoch s)
    = [EBeginEpoch] ++ log training_pass ++ [EModelEval] ++ log test_loop
      ++ [EEndEpoch lr; EWrite msg PyNone; ESaveBest (model_name self)]
      ++ (if truthy (scheduler self) && negb (batch_scheduler self)
             && match c with OtherScheduler => true | ReduceLROnPlateau => false end
          then [ESchedStepEpoch] else [])
      ++ [EWrite (format_lr lr) PyNone].
Proof.
  intros Hgood Hheld Hcls. cbv zeta.
  remember (ModelTrainer_epoch self epoch s) as o eqn:Eo.
  unfold ModelTrainer_epoch in Eo. unfold runmanager at 1 in Eo.
  rewrite bind_call in Eo. cbv zeta in Eo. cbn [fst snd] in Eo.
  set (s1 := set_stats _ s) in *.
  assert (Hcls1 : scheduler_class c s1) by exact Hcls.
  assert (Hstep : can_step (train self) s1)
    by (intros H; exact (eq_trans Hcls1 (Hheld H))).
  rewrite (bind_Ok _ _ _ tt (Train_run_value (train self) s1 Hstep)) in Eo.
  cbn [value final log] in Eo.
  pose proof (Train_run_scheduler_class (train self) _ s1 Hcls1) as Hcls2.
  set (s2 := final (Train_run (train self) s1)) in *.
  assert (Hplain := Test_run_plain (test self) s2
                      (fun H => eq_trans Hcls2 (Hgood H))).
  cbv zeta in Hplain.
  destruct (Test_loop_frame (test self)
              (set_grad_enabled false (set_training false s2)))
    as (_ & (_ & _ & _ & _ & Ho & Hs) & _).
  rewrite (bind_Ok _ _ _ tt) in Eo by (rewrite Hplain; reflexivity).
  rewrite Hplain in Eo. cbn [value final log] in Eo.
  set (s3 := set_grad_enabled _ _) in *.
  assert (Hcls3 : sched_cls (sched s3) = c).
  { unfold s3. cbn [set_grad_enabled sched]. rewrite Hs. exact Hcls2. }
  assert (Hopt3 : optim s3 = optim s2).
  { unfold s3. cbn [set_grad_enabled optim]. rewrite Ho. reflexivity. }
  pose proof (epoch_end_log self s3) as Hend. cbv zeta in Hend.
  rewrite Hcls3, Hopt3 in Hend.
  subst o. cbn [log]. rewrite Hend, app_nil_r.
  eexists. reflexivity.
Qed.

(** ** Counting scheduler steps *)

Lemma batch_steps_app (l1 l2 : list event) :
  batch_steps (l1 ++ l2) = batch_steps l1 + batch_steps l2.
Proof. unfold batch_steps. rewrite List.filter_app. apply length_app. Qed.

Lemma epoch_steps_app (l1 l2 : list event) :
  epoch_steps (l1 ++ l2) = epoch_steps l1 + epoch_steps l2.
Proof. unfold epoch_steps. rewrite List.filter_app. apply length_app. Qed.

Lemma for_each_steps {A} (Inv : state -> Prop) (count : list event -> nat)
    (body : A -> M unit) (k : nat) (xs : list A) :
  count [] = 0 ->
  (forall l1 l2, count (l1 ++ l2) = count l1 + count l2) ->
  (forall x s, Inv s -> value (body x s) = Ok tt /\ Inv (final (body x s))) ->
  (forall x s, count (log (body x s)) = k) ->
  forall s, Inv s -> count (log (for_each xs body s)) = length xs * k.
Proof.
  intros Hnil Happ Hval Hk. induction xs as [|x xs IH]; intros s Hs; [exact Hnil|].
  destruct (Hval x s Hs) as [Hv Hf].
  cbn [for_each]. rewrite (bind_Ok _ _ _ tt Hv). cbn [log length].
  rewrite Happ, Hk, IH by exact Hf. lia.
Qed.

Lemma Train_batch_steps_count (self : Train) (b : Data * Target) (s : state) :
  batch_steps (log (Train_batch self b s))
  = (if truthy (Train_scheduler self) then 1 else 0)
  /\ epoch_steps (log (Train_batch self b s)) = 0.
Proof.
  destruct b as [data target]. unfold Train_batch.
  destruct s as [tr ps g ge o [cls st] r].
  destruct (Qlt_le_dec 0 (Train_L1lambda self));
    destruct (Train_scheduler self); destruct cls; split; reflexivity.
Qed.

Lemma Train_run_steps_count (self : Train) (s : state) :
  can_step self s ->
  batch_steps (log (Train_run self s))
  = length (Train_dataloader self)
    * (if truthy (Train_scheduler self) then 1 else 0)
  /\ epoch_steps (log (Train_run self s)) = 0.
Proof.
  intros Hs. rewrite Train_run_unfold. cbn [log].
  change (batch_steps (EModelTrain :: ?l)) with (batch_steps l).
  change (epoch_steps (EModelTrain :: ?l)) with (epoch_steps l).
  split.
  - apply (for_each_steps (can_step self)); [reflexivity|apply batch_steps_app
                           |apply Train_batch_ok| |exact Hs].
    intros b s'. apply Train_batch_steps_count.
  - rewrite (for_each_steps (can_step self) epoch_steps _ 0);
      [lia|reflexivity|apply epoch_steps_app|apply Train_batch_ok| |exact Hs].
    intros b s'. apply Train_batch_steps_count.
Qed.

Lemma Test_loop_steps_count (self : Test) (s : state) :
  batch_steps (log (for_each (Test_dataloader self) (Test_batch self) s)) = 0
  /\ epoch_steps (log (for_each (Test_dataloader self) (Test_batch self) s)) = 0.
Proof.
  split.
  - rewrite (for_each_steps (fun _ => True) batch_steps _ 0);
      [lia|reflexivity|apply batch_steps_app|apply Test_batch_ok| |exact I].
    intros [data target] s'. reflexivity.
  - rewrite (for_each_steps (fun _ => True) epoch_steps _ 0);
      [lia|reflexivity|apply epoch_steps_app|apply Test_batch_ok| |exact I].
    intros [data target] s'. reflexivity.
Qed.

Lemma ModelTrainer_epoch_steps_count (self : ModelTrainer) (epoch : Z)
    (c : sched_class) (s : state) :
  (truthy (Test_scheduler (test self)) = true -> c = OtherScheduler) ->
  (truthy (Train_scheduler (train self)) = true -> c = OtherScheduler) ->
  scheduler_class c s ->
  batch_steps (log (ModelTrainer_epoch self epoch s))
  = length (Train_dataloader (train self))
    * (if truthy (Train_scheduler (train self)) then 1 else 0)
  /\ epoch_steps (log (ModelTrainer_epoch self epoch s))
     = if truthy (scheduler self) && negb (batch_scheduler self)
          && match c with OtherScheduler => true | ReduceLROnPlateau => false end
       then 1 else 0.
Proof.
  intros Hgood Hheld Hcls.
  destruct (ModelTrainer_epoch_log self epoch c s Hgood Hheld Hcls) as [msg Hlog].
  cbv zeta in Hlog. rewrite Hlog.
  rewrite !batch_steps_app, !epoch_steps_app.
  destruct (Train_run_steps_count (train self)
              (set_stats (rm_begin_epoch (stats s)) s)
              (fun H => eq_trans Hcls (Hheld H))) as [-> ->].
  destruct (Test_loop_steps_count (test self)
              (set_grad_enabled false
                 (set_training false
                    (final (Train_run (train self)
                              (set_stats (rm_begin_epoch (stats s)) s))))))
    as [-> ->].
  split.
  - destruct (truthy (scheduler self) && negb (batch_scheduler self)
              && match c with OtherScheduler => true | ReduceLROnPlateau => false end);
      cbn; lia.
  - destruct (truthy (scheduler self) && negb (batch_scheduler self)
              && match c with OtherScheduler => true | ReduceLROnPlateau => false end);
      reflexivity.
Qed.

(** X12. A run with a scheduler that is not a [ReduceLROnPlateau] steps it
    once per training batch of every epoch when [batch_scheduler] is
    true, and once per epoch when it is false; a run without a scheduler
    makes no step. *)
Theorem scheduler_step_counts (name : string)
    (train_loader test_loader : list (Data * Target))
    (lossfn : Output -> Target -> Q) (r : option sched_ref) (batch_sched : bool)
    (L1lambda : Q) (tbrun : string) (epochs : Z) (s : state) :
  (truthy r = true -> scheduler_class OtherScheduler s) ->
  let l := log (ModelTrainer_run
                  (ModelTrainer_init name train_loader test_loader lossfn r
                     batch_sched L1lambda) tbrun epochs s) in
  batch_steps l
  = (if truthy r && batch_sched
     then Z.to_nat epochs * length train_loader else 0)
  /\ epoch_steps l
     = (if truthy r && negb batch_sched then Z.to_nat epochs else 0).
Proof.
  intros Hgood. cbv zeta.
  set (self := ModelTrainer_init name train_loader test_loader lossfn r
                 batch_sched L1lambda).
  set (c := sched_cls (sched s)).
  assert (Hc : truthy (Test_scheduler (test self)) = true -> c = OtherScheduler)
    by (intros H; exact (Hgood H)).
  assert (Hc' : truthy (Train_scheduler (train self)) = true -> c = OtherScheduler).
  { unfold self. cbn [ModelTrainer_init train Train_scheduler].
    destruct batch_sched; [exact Hgood|intros H; discriminate H]. }
  remember (ModelTrainer_run self tbrun epochs s) as o eqn:Eo.
  unfold ModelTrainer_run in Eo. unfold runmanager at 1 in Eo.
  rewrite bind_call in Eo. cbv zeta in Eo. cbn [fst snd] in Eo.
  set (s1 := set_stats _ s) in Eo.
  assert (Hcls1 : scheduler_class c s1) by reflexivity.
  assert (Hloop : forall xs s', scheduler_class c s' ->
            value (for_each xs (ModelTrainer_epoch self) s') = Ok tt
            /\ batch_steps (log (for_each xs (ModelTrainer_epoch self) s'))
               = length xs * (length train_loader
                              * (if truthy r && batch_sched then 1 else 0))
            /\ epoch_steps (log (for_each xs (ModelTrainer_epoch self) s'))
               = length xs * (if truthy r && negb batch_sched then 1 else 0)).
  { induction xs as [|x xs IH]; intros s' Hs'; [repeat split|].
    destruct (ModelTrainer_epoch_calls self x c s' Hc Hc' Hs') as (Hv & _ & Hf).
    destruct (ModelTrainer_epoch_steps_count self x c s' Hc Hc' Hs') as [Hb He].
    cbn [for_each]. rewrite (bind_Ok _ _ _ tt Hv). cbn [value final log length].
    destruct (IH _ Hf) as (Hv' & Hb' & He'). split; [exact Hv'|].
    rewrite batch_steps_app, epoch_steps_app, Hb, He, Hb', He'.
    unfold self. cbn [ModelTrainer_init train scheduler batch_scheduler
                      Train_scheduler Train_dataloader].
    assert (Hother : truthy r = true ->
              match c with OtherScheduler => true | ReduceLROnPlateau => false end
              = true).
    { intros Hr. unfold c. rewrite (Hgood Hr). reflexivity. }
    destruct r as [r0|], batch_sched; cbn [truthy negb andb] in *;
      try rewrite (Hother eq_refl); cbn [andb]; split; lia. }
  destruct (Hloop (epoch_range epochs) s1 Hcls1) as (Hv & Hb & He).
  rewrite (bind_Ok _ _ _ tt Hv) in Eo. subst o. cbn [log].
  change (batch_steps (EBeginRun tbrun :: ?l)) with (batch_steps l).
  change (epoch_steps (EBeginRun tbrun :: ?l)) with (epoch_steps l).
  rewrite batch_steps_app, epoch_steps_app, Hb, He, length_epoch_range.
  cbn [runmanager call log batch_steps epoch_steps List.filter is_batch_step
       is_epoch_step length].
  destruct (truthy r && batch_sched), (truthy r && negb batch_sched); split; lia.
Qed.

(** X13. In an epoch that runs to its end (neither runner holds a
    [ReduceLROnPlateau]; the training runner of a trainer built by
    [ModelTrainer.__init__] holds a scheduler only if the evaluation
    runner holds it), the learning rate handed to end_epoch and the one
    printed in the last line of the epoch are the same, the optimizer's
    rate as the training pass left it: both are read before the scheduler
    step of the epoch, which is made between the two calls. *)
Theorem epoch_reports_rate_before_step (self : ModelTrainer) (epoch : Z)
    (s : state) :
  (truthy (Test_scheduler (test self)) = true ->
   scheduler_class OtherScheduler s) ->
  (truthy (Train_scheduler (train self)) = true ->
   scheduler_class OtherScheduler s) ->
  let lr := opt_lr (optim (final (Train_run (train self)
                                    (set_stats (rm_begin_epoch (stats s)) s)))) in
  exists before msg,
    log (ModelTrainer_epoch self epoch s)
    = before
      ++ [EEndEpoch lr; EWrite msg PyNone; ESaveBest (model_name self)]
      ++ (if truthy (scheduler self) && negb (batch_scheduler self)
             && match sched_cls (sched s) with
                | OtherScheduler => true
                | ReduceLROnPlateau => false
                end
          then [ESchedStepEpoch] else [])
      ++ [EWrite (format_lr lr) PyNone].
Proof.
  intros Hgood Hheld. cbv zeta.
  destruct (ModelTrainer_epoch_log self epoch (sched_cls (sched s)) s
              (fun H => Hgood H) (fun H => Hheld H) eq_refl) as [msg Hlog].
  cbv zeta in Hlog. eexists _, msg. rewrite Hlog.
  rewrite (app_assoc [EBeginEpoch]), (app_assoc _ [EModelEval]), (app_assoc _ (log _)).
  reflexivity.
Qed.

End Runs.

Import Toy.

Lemma ModelTrainer_run_no_epochs_witness :
  log (ModelTrainer_run (toy_trainer (Some TheScheduler) false) "run" 0
         (toy_state ReduceLROnPlateau))
  = [EBeginRun "run"; ESave "S11Net"].
Proof.
  rewrite (ModelTrainer_run_no_epochs (toy_trainer (Some TheScheduler) false)
             "run" 0 (toy_state ReduceLROnPlateau)) by lia.
  reflexivity.
Defined.

Lemma plateau_never_stepped_witness :
  Forall (fun e => name_of e <> scheduler_step_)
    (log (ModelTrainer_run (toy_trainer (Some TheScheduler) false) "run" 1
            (toy_state ReduceLROnPlateau))).
Proof.
  apply (plateau_never_stepped (F := toy) "S11Net" two_batches two_batches toy_lossfn
           (Some TheScheduler) 0%Q "run" 1 (toy_state ReduceLROnPlateau)).
  reflexivity.
Defined.

Lemma scheduler_step_counts_witness :
  batch_steps (log (ModelTrainer_run (toy_trainer (Some TheScheduler) true)
                      "run" 2 (toy_state OtherScheduler))) = 2 * 2
  /\ epoch_steps (log (ModelTrainer_run (toy_trainer (Some TheScheduler) false)
                         "run" 2 (toy_state OtherScheduler))) = 2.
Proof.
  split.
  - apply (proj1 (scheduler_step_counts (F := toy) "S11Net" two_batches
                    two_batches toy_lossfn (Some TheScheduler) true 0%Q "run" 2
                    (toy_state OtherScheduler) (fun _ => eq_refl))).
  - apply (proj2 (scheduler_step_counts (F := toy) "S11Net" two_batches
                    two_batches toy_lossfn (Some TheScheduler) false 0%Q "run" 2
                    (toy_state OtherScheduler) (fun _ => eq_refl))).
Defined.

Lemma epoch_reports_rate_before_step_witness :
  exists before msg,
    log (ModelTrainer_epoch (toy_trainer (Some TheScheduler) false) 1
           (toy_state OtherScheduler))
    = before
      ++ [EEndEpoch 1%Q; EWrite msg PyNone; ESaveBest "S11Net"]
      ++ [ESchedStepEpoch]
      ++ [EWrite "Learning Rate" PyNone].
Proof.
  apply (epoch_reports_rate_before_step (toy_trainer (Some TheScheduler) false) 1
           (toy_state OtherScheduler) (fun _ => eq_refl) (fun _ => eq_refl)).
Defined.

End TrainerRuns.
